(** * Student registration service: API handlers and client form hook

    A shallow embedding of the Express handlers of the API service
    (register, login, profile, status and the students CRUD routes), of the
    [students] table they run their SQL against, of the in-memory [sessions]
    object, and of the two React hooks of the web client that drive the
    form.  Each request is handled atomically: the callbacks of one request
    run to completion before the next request is looked at. *)

From Stdlib Require Import Ascii.
From stdpp Require Import gmap strings list fin_maps pretty.

Local Open Scope Z_scope.

(** ** The API service *)

Module Server.

(** A column value or a JSON body member as the handlers see it: a string,
    or nothing ([undefined] in the body, [NULL] in the table). *)
Abbreviation field := (option string).

(** SQL's [=] on two values of the [email] column: [NULL] equals nothing,
    not even [NULL]. *)
Definition sql_eq (a b : field) : bool :=
  match a, b with
  | Some x, Some y => bool_decide (x = y)
  | _, _ => false
  end.

(** *** The [students] table

    [CREATE TABLE IF NOT EXISTS students (id INTEGER PRIMARY KEY
    AUTOINCREMENT, firstName TEXT, lastName TEXT, username TEXT,
    email TEXT UNIQUE, contact TEXT, password TEXT)]. *)

Record row := Row {
  id : Z;
  firstName : field;
  lastName : field;
  username : field;
  email : field;
  contact : field;
  password : field
}.

(** The table in rowid order, and the counter that AUTOINCREMENT keeps in
    [sqlite_sequence] (the largest rowid ever handed out). *)
Record database := Database {
  students : list row;
  sqlite_sequence : Z
}.

Definition error := string.
Definition SQLITE_CONSTRAINT : error := "SQLITE_CONSTRAINT".

(** What the outside world decides during one request. *)
Record world := World {
  (** [Date.now()], milliseconds since the epoch *)
  Date_now : N;
  (** [bcrypt.hash] on a string at a cost, with the salt it draws *)
  bcrypt_digest : string → nat → string;
  (** [bcrypt.compare] on a string and a stored hash *)
  bcrypt_verify : string → string → bool;
  (** the error, if any, that storage reports to a [db.get] or [db.all] *)
  get_err : option error;
  (** the error, if any, that storage reports to a [db.run], besides a
      violated constraint *)
  run_err : option error;
  (** the text the driver binds for a parameter that is an object *)
  object_text : string → string
}.

(** The JSON body of a request:
    [const { firstName, lastName, username, email, contact, password } = req.body]. *)
Module req.
Record body := Body {
  firstName : field;
  lastName : field;
  username : field;
  email : field;
  contact : field;
  password : field
}.
End req.

(** [SELECT * FROM students WHERE email = ?], first row. *)
Definition select_by_email (e : field) (d : database) : option row :=
  find (λ r, sql_eq (email r) e) (students d).

Definition db_get (w : world) (d : database) (e : field) : error + option row :=
  match get_err w with
  | Some err => inl err
  | None => inr (select_by_email e d)
  end.

(** The UNIQUE constraint of the [email] column against the rows [rs]. *)
Definition email_free (e : field) (rs : list row) : bool :=
  forallb (λ r, negb (sql_eq (email r) e)) rs.

Definition max_rowid (rs : list row) : Z :=
  foldr (λ r m, Z.max (id r) m) 0 rs.

Definition next_rowid (d : database) : Z :=
  Z.max (sqlite_sequence d) (max_rowid (students d)) + 1.

(** [INSERT INTO students (firstName, lastName, username, email, contact,
    password) VALUES (?, ?, ?, ?, ?, ?)]; the result is [this.lastID]. *)
Definition db_insert (w : world) (d : database)
    (fn ln un em ct pw : field) : error + (Z * database) :=
  match run_err w with
  | Some err => inl err
  | None =>
      if email_free em (students d) then
        let i := next_rowid d in
        inr (i, {| students := students d ++ [Row i fn ln un em ct pw];
                   sqlite_sequence := i |})
      else inl SQLITE_CONSTRAINT
  end.

(** [UPDATE students SET firstName = ?, lastName = ?, username = ?,
    email = ?, contact = ?, password = ? WHERE id = ?] on one row. *)
Definition set_columns (i : Z) (fn ln un em ct pw : field) (r : row) : row :=
  if bool_decide (id r = i) then Row (id r) fn ln un em ct pw else r.

(** The statement breaks UNIQUE when it rewrites some row while a row it
    does not rewrite already holds the new email. *)
Definition update_conflict (i : Z) (em : field) (rs : list row) : bool :=
  existsb (λ r, bool_decide (id r = i)) rs
  && existsb (λ r, bool_decide (id r ≠ i) && sql_eq (email r) em) rs.

Definition count_id (i : Z) (rs : list row) : nat :=
  length (filter (λ r, id r = i) rs).

(** The result is [this.changes]. *)
Definition db_update (w : world) (d : database) (i : Z)
    (fn ln un em ct pw : field) : error + (nat * database) :=
  match run_err w with
  | Some err => inl err
  | None =>
      if update_conflict i em (students d) then inl SQLITE_CONSTRAINT
      else inr (count_id i (students d),
                {| students := set_columns i fn ln un em ct pw <$> students d;
                   sqlite_sequence := sqlite_sequence d |})
  end.

(** [DELETE FROM students WHERE id = ?]; the result is [this.changes]. *)
Definition db_delete (w : world) (d : database) (i : Z) : error + (nat * database) :=
  match run_err w with
  | Some err => inl err
  | None =>
      inr (count_id i (students d),
           {| students := filter (λ r, id r ≠ i) (students d);
              sqlite_sequence := sqlite_sequence d |})
  end.

(** *** Result rows as JSON objects *)

Inductive value :=
  | VNull
  | VInt (z : Z)
  | VText (s : string).

Definition of_field (f : field) : value :=
  match f with
  | Some s => VText s
  | None => VNull
  end.

Global Instance value_eq_dec : EqDecision value.
Proof. solve_decision. Defined.

Abbreviation obj := (list (string * value)).

(** The object the driver builds for [SELECT *]. *)
Definition select_star (r : row) : obj :=
  [("id", VInt (id r)); ("firstName", of_field (firstName r));
   ("lastName", of_field (lastName r)); ("username", of_field (username r));
   ("email", of_field (email r)); ("contact", of_field (contact r));
   ("password", of_field (password r))].

(** The object the driver builds for
    [SELECT id, firstName, lastName, email, contact]. *)
Definition select_listed (r : row) : obj :=
  [("id", VInt (id r)); ("firstName", of_field (firstName r));
   ("lastName", of_field (lastName r)); ("email", of_field (email r));
   ("contact", of_field (contact r))].

(** The columns that the list route selects. *)
Definition listed : list string := ["id"; "firstName"; "lastName"; "email"; "contact"].

Definition db_all (w : world) (d : database) : error + list obj :=
  match get_err w with
  | Some err => inl err
  | None => inr (select_listed <$> students d)
  end.

(** *** bcrypt's argument checks *)

Definition SALT_ROUNDS : nat := 10.

Definition bcrypt_hash (w : world) (data : field) (rounds : nat) : error + string :=
  match data with
  | None => inl "data and salt arguments required"
  | Some p => inr (bcrypt_digest w p rounds)
  end.

Definition bcrypt_compare (w : world) (data hash : field) : error + bool :=
  match data, hash with
  | Some p, Some h => inr (bcrypt_verify w p h)
  | _, _ => inl "data and hash arguments required"
  end.

(** *** The [sessions] object

    [const sessions = {}]: the own properties are the tokens written by
    login; a read of any other key falls through to [Object.prototype]. *)

Inductive jsval :=
  | JUndefined
  | JString (s : string)
  | JInherited (name : string).

Definition Object_prototype : list string :=
  ["constructor"; "__proto__"; "hasOwnProperty"; "isPrototypeOf";
   "propertyIsEnumerable"; "toLocaleString"; "toString"; "valueOf";
   "__defineGetter__"; "__defineSetter__"; "__lookupGetter__";
   "__lookupSetter__"].

Definition js_field (f : field) : jsval :=
  match f with
  | Some s => JString s
  | None => JUndefined
  end.

(** [sessions[token]] *)
Definition js_get (o : gmap string field) (k : string) : jsval :=
  match o !! k with
  | Some f => js_field f
  | None => if bool_decide (k ∈ Object_prototype) then JInherited k else JUndefined
  end.

Definition truthy (v : jsval) : bool :=
  match v with
  | JUndefined => false
  | JString s => negb (bool_decide (s = ""))
  | JInherited _ => true
  end.

(** The value the driver binds for a query parameter. *)
Definition bind (w : world) (v : jsval) : field :=
  match v with
  | JUndefined => None
  | JString s => Some s
  | JInherited k => Some (object_text w k)
  end.

(** A value inside a template literal. *)
Definition js_string (f : field) : string :=
  match f with
  | Some s => s
  | None => "undefined"
  end.

(** A header value used as a property key. *)
Definition js_key (h : option string) : string := js_string h.

(** *** Requests, responses and the calls made on storage *)

Record state := State {
  db : database;
  sessions : gmap string field
}.

Inductive json :=
  | Message (message : string)
  | Failure (message : string) (err : error)
  | Created (message : string) (lastID : Z)
  | Token (token : string)
  | Profile (profile : obj)
  | Rows (rows : list obj)
  | Status (status : string).

Record response := Response {
  status : nat;
  body : json
}.

Inductive statement := SELECT_BY_EMAIL | SELECT_ALL | INSERT | UPDATE | DELETE.

Definition is_write (s : statement) : bool :=
  match s with
  | SELECT_BY_EMAIL | SELECT_ALL => false
  | INSERT | UPDATE | DELETE => true
  end.

(** One call on storage: the statement, and the error or the number of rows
    it changed. *)
Inductive event := Ran (s : statement) (res : error + nat).

(** Whether a call on storage was a write. *)
Definition wrote (ev : event) : bool :=
  match ev with
  | Ran s _ => is_write s
  end.

Record outcome := Outcome {
  next : state;
  reply : response;
  calls : list event
}.

Definition ok (b : json) : response := Response 200 b.

(** *** The route handlers *)

(** [app.post('/api/register', ...)] *)
Definition register (w : world) (st : state) (b : req.body) : outcome :=
  match db_get w (db st) (req.email b) with
  | inl err =>
      Outcome st (Response 500 (Failure "DB error" err))
        [Ran SELECT_BY_EMAIL (inl err)]
  | inr (Some _) =>
      Outcome st (Response 400 (Message "User already exists"))
        [Ran SELECT_BY_EMAIL (inr 0%nat)]
  | inr None =>
      match bcrypt_hash w (req.password b) SALT_ROUNDS with
      | inl err =>
          Outcome st (Response 500 (Failure "Hash error" err))
            [Ran SELECT_BY_EMAIL (inr 0%nat)]
      | inr hash =>
          match db_insert w (db st) (req.firstName b) (req.lastName b)
                  (req.username b) (req.email b) (req.contact b) (Some hash) with
          | inl err =>
              Outcome st (Response 500 (Failure "Insert error" err))
                [Ran SELECT_BY_EMAIL (inr 0%nat); Ran INSERT (inl err)]
          | inr (lastID, d) =>
              Outcome (State d (sessions st))
                (ok (Created "Registered successfully" lastID))
                [Ran SELECT_BY_EMAIL (inr 0%nat); Ran INSERT (inr 1%nat)]
          end
      end
  end.

(** [app.post('/api/login', ...)] *)
Definition login (w : world) (st : state) (b : req.body) : outcome :=
  match db_get w (db st) (req.email b) with
  | inl err =>
      Outcome st (Response 500 (Failure "DB error" err))
        [Ran SELECT_BY_EMAIL (inl err)]
  | inr None =>
      Outcome st (Response 401 (Message "Invalid credentials"))
        [Ran SELECT_BY_EMAIL (inr 0%nat)]
  | inr (Some user) =>
      match bcrypt_compare w (req.password b) (password user) with
      | inr true =>
          let token := js_string (req.email b) +:+ "-" +:+ pretty (Date_now w) in
          Outcome (State (db st) (<[token := req.email b]> (sessions st)))
            (ok (Token token))
            [Ran SELECT_BY_EMAIL (inr 0%nat)]
      | _ =>
          Outcome st (Response 401 (Message "Invalid credentials"))
            [Ran SELECT_BY_EMAIL (inr 0%nat)]
      end
  end.

(** [app.get('/api/profile', ...)]; [authorization] is
    [req.headers.authorization]. *)
Definition profile (w : world) (st : state) (authorization : option string) : outcome :=
  let token := js_key authorization in
  let email := js_get (sessions st) token in
  if negb (truthy email) then
    Outcome st (Response 401 (Message "Unauthorized")) []
  else
    match db_get w (db st) (bind w email) with
    | inl err =>
        Outcome st (Response 500 (Failure "DB error" err))
          [Ran SELECT_BY_EMAIL (inl err)]
    | inr None =>
        Outcome st (Response 404 (Message "User not found"))
          [Ran SELECT_BY_EMAIL (inr 0%nat)]
    | inr (Some user) =>
        Outcome st (ok (Profile (select_star user)))
          [Ran SELECT_BY_EMAIL (inr 0%nat)]
    end.

(** [app.get('/api/status', ...)] *)
Definition status_check (st : state) : outcome :=
  Outcome st (ok (Status "Dummy backend with SQLite running")) [].

(** [app.post('/api/students', ...)] *)
Definition create (w : world) (st : state) (b : req.body) : outcome :=
  match db_get w (db st) (req.email b) with
  | inl err =>
      Outcome st (Response 500 (Failure "DB error" err))
        [Ran SELECT_BY_EMAIL (inl err)]
  | inr (Some _) =>
      Outcome st (Response 400 (Message "Student already exists"))
        [Ran SELECT_BY_EMAIL (inr 0%nat)]
  | inr None =>
      match db_insert w (db st) (req.firstName b) (req.lastName b)
              (req.username b) (req.email b) (req.contact b) (req.password b) with
      | inl err =>
          Outcome st (Response 500 (Failure "Insert error" err))
            [Ran SELECT_BY_EMAIL (inr 0%nat); Ran INSERT (inl err)]
      | inr (lastID, d) =>
          Outcome (State d (sessions st))
            (ok (Created "Student inserted" lastID))
            [Ran SELECT_BY_EMAIL (inr 0%nat); Ran INSERT (inr 1%nat)]
      end
  end.

(** [app.get('/api/students', ...)] *)
Definition list_students (w : world) (st : state) : outcome :=
  match db_all w (db st) with
  | inl err =>
      Outcome st (Response 500 (Failure "DB error" err)) [Ran SELECT_ALL (inl err)]
  | inr rows =>
      Outcome st (ok (Rows rows)) [Ran SELECT_ALL (inr 0%nat)]
  end.

(** [app.put('/api/students/:id', ...)]; [i] is the rowid that the path
    segment denotes under the column's INTEGER affinity. *)
Definition update (w : world) (st : state) (i : Z) (b : req.body) : outcome :=
  match db_update w (db st) i (req.firstName b) (req.lastName b)
          (req.username b) (req.email b) (req.contact b) (req.password b) with
  | inl err =>
      Outcome st (Response 500 (Failure "Update error" err)) [Ran UPDATE (inl err)]
  | inr (changes, d) =>
      Outcome (State d (sessions st))
        (ok (Message "Student updated successfully"))
        [Ran UPDATE (inr changes)]
  end.

(** [app.delete("/api/students/:id", ...)] *)
Definition delete_student (w : world) (st : state) (i : Z) : outcome :=
  match db_delete w (db st) i with
  | inl err =>
      Outcome st (Response 500 (Failure "Delete failed" err)) [Ran DELETE (inl err)]
  | inr (changes, d) =>
      Outcome (State d (sessions st))
        (ok (Message "Deleted successfully"))
        [Ran DELETE (inr changes)]
  end.

(** *** Sequences of requests *)

Inductive request :=
  | POST_register (b : req.body)
  | POST_login (b : req.body)
  | GET_profile (authorization : option string)
  | GET_status
  | POST_students (b : req.body)
  | GET_students
  | PUT_students (i : Z) (b : req.body)
  | DELETE_students (i : Z).

Definition handle (w : world) (st : state) (r : request) : outcome :=
  match r with
  | POST_register b => register w st b
  | POST_login b => login w st b
  | GET_profile a => profile w st a
  | GET_status => status_check st
  | POST_students b => create w st b
  | GET_students => list_students w st
  | PUT_students i b => update w st i b
  | DELETE_students i => delete_student w st i
  end.

(** The state after serving the requests from left to right, each in the
    world it meets. *)
Definition serve (st : state) (rs : list (world * request)) : state :=
  foldl (λ s wr, next (handle wr.1 s wr.2)) st rs.

(** A fresh database file and a fresh process. *)
Definition boot : state := State (Database [] 0) ∅.

(** A world in which storage reports no error. *)
Definition calm (w : world) : Prop := get_err w = None ∧ run_err w = None.

(** *** Consistency of the table *)

(** No two rows hold the same email, under the equality the column's
    UNIQUE index uses. *)
Definition distinct_emails (rs : list row) : Prop :=
  ∀ (j k : nat) r1 r2,
    j ≠ k → rs !! j = Some r1 → rs !! k = Some r2 →
    sql_eq (email r1) (email r2) = false.

(** The same property by recursion on the table: each row differs in email
    from all the rows after it. *)
Fixpoint apart (rs : list row) : Prop :=
  match rs with
  | [] => True
  | r :: rs' => (∀ r', r' ∈ rs' → sql_eq (email r) (email r') = false) ∧ apart rs'
  end.

Record consistent (d : database) : Prop := Consistent {
  ids_distinct : NoDup (id <$> students d);
  emails_distinct : distinct_emails (students d)
}.

(** Every session entry was written by a login: its key is the entry's
    email, a hyphen and a timestamp. *)
Definition minted (ss : gmap string field) : Prop :=
  ∀ k v, ss !! k = Some v →
    ∃ e n, v = Some e ∧ k = e +:+ "-" +:+ pretty (n : N).

(** Strings without a hyphen, such as the decimal digits of a timestamp. *)
Fixpoint no_dash (s : string) : Prop :=
  match s with
  | EmptyString => True
  | String c s' => c ≠ "-"%char ∧ no_dash s'
  end.

(** *** Sample requests and worlds *)

(** A world for the examples: a fixed clock, a bcrypt that tags the
    password, storage without errors. *)
Definition quiet : world :=
  World 1700000000000
    (λ p _, "$2b$10$" +:+ p)
    (λ p h, bool_decide (h = "$2b$10$" +:+ p))
    None None
    (λ _, "[object Object]").

(** The same world with a storage that fails every read. *)
Definition unreadable : world :=
  World 1700000000000
    (λ p _, "$2b$10$" +:+ p)
    (λ p h, bool_decide (h = "$2b$10$" +:+ p))
    (Some "SQLITE_IOERR") None
    (λ _, "[object Object]").

Definition ada : req.body :=
  req.Body (Some "Ada") (Some "Lovelace") (Some "ada") (Some "ada@example.org")
    (Some "0917") (Some "enchantress").

Definition bob : req.body :=
  req.Body (Some "Bob") (Some "Stone") (Some "bob") (Some "bob@example.org")
    (Some "0918") (Some "hunter2").

(** A form submitted with the email input left empty. *)
Definition blank : req.body :=
  req.Body (Some "Eve") (Some "Hart") (Some "eve") (Some "") (Some "0919")
    (Some "pw").

End Server.

(** ** The web client's hooks *)

Module Client.

(** The record that the form edits (the six inputs of the form). *)
Record Student := mkStudent {
  firstName : string;
  lastName : string;
  username : string;
  email : string;
  contact : string;
  password : string
}.

(** The requests that the hooks send through the HTTP client. *)
Inductive api_call :=
  | api_get_students
  | api_post_register (student : Student)
  | api_put_student (i : Z) (updated : Student)
  | api_delete_student (i : Z).

(** How the promise of a request settles: with a response, or rejected
    (no answer, or a status that the HTTP client turns into an error). *)
Inductive settled :=
  | Resolved (status : nat) (data : list Student)
  | Rejected (reason : string).

(** The network: how the [n]-th request of the session settles. *)
Abbreviation network := (nat → api_call → settled).

(** The state cells of [useStudentForm] and of the [useStudents] it calls,
    and the requests sent so far. *)
Record hooks := Hooks {
  form : Student;
  editId : option Z;
  students : list Student;
  error : option string;
  sent : list api_call
}.

(** An async function body: it ends normally or throws, and leaves the
    state cells as it set them. *)
Definition async (A : Type) : Type := hooks → (A + string) * hooks.

Global Instance async_ret : MRet async := λ A a h, (inl a, h).

Global Instance async_bind : MBind async := λ A B k m h,
  match m h with
  | (inl a, h') => k a h'
  | (inr e, h') => (inr e, h')
  end.

(** [try { body } catch (err) { handler }] *)
Definition try_catch {A} (body : async A) (handler : string → async A) : async A :=
  λ h, match body h with
       | (inl a, h') => (inl a, h')
       | (inr e, h') => handler e h'
       end.

Definition read {A} (cell : hooks → A) : async A := λ h, (inl (cell h), h).

Definition setForm (f : Student) : async unit :=
  λ h, (inl (), Hooks f (editId h) (students h) (error h) (sent h)).

Definition setEditId (i : option Z) : async unit :=
  λ h, (inl (), Hooks (form h) i (students h) (error h) (sent h)).

Definition setStudents (l : list Student) : async unit :=
  λ h, (inl (), Hooks (form h) (editId h) l (error h) (sent h)).

Definition setError (m : string) : async unit :=
  λ h, (inl (), Hooks (form h) (editId h) (students h) (Some m) (sent h)).

(** [await api.get(...)], [await api.post(...)], ... *)
Definition await_api (net : network) (c : api_call) : async (nat * list Student) :=
  λ h,
    let h' := Hooks (form h) (editId h) (students h) (error h) (sent h ++ [c]) in
    match net (length (sent h)) c with
    | Resolved status data => (inl (status, data), h')
    | Rejected reason => (inr reason, h')
    end.

Definition fetchStudents (net : network) : async unit :=
  try_catch
    (response ← await_api net api_get_students;
     setStudents response.2)
    (λ _, setError "Failed to fetch students").

Definition addStudent (net : network) (student : Student) : async unit :=
  try_catch
    (response ← await_api net (api_post_register student);
     if bool_decide (response.1 = 201%nat) || bool_decide (response.1 = 200%nat)
     then fetchStudents net
     else mret ())
    (λ _, setError "Failed to register student").

Definition updateStudent (net : network) (i : Z) (updated : Student) : async unit :=
  try_catch
    (response ← await_api net (api_put_student i updated);
     if bool_decide (response.1 = 200%nat)
     then fetchStudents net
     else mret ())
    (λ _, setError "Failed to update student").

Definition resetForm : async unit :=
  setForm (mkStudent "" "" "" "" "" "");;
  setEditId None.

Definition handleSubmit (net : network) : async unit :=
  i ← read editId;
  f ← read form;
  match i with
  | Some i => updateStudent net i f
  | None => addStudent net f
  end;;
  resetForm.

End Client.

(** ** Further notions about the API service *)

Module Lifecycle.
Import Server.

(** No stored identifier exceeds the AUTOINCREMENT counter. *)
Definition ids_bounded (d : database) : Prop :=
  ∀ r, r ∈ students d → id r ≤ sqlite_sequence d.

(** The routes that only read the table. *)
Definition reads_only (r : request) : bool :=
  match r with
  | POST_login _ | GET_profile _ | GET_status | GET_students => true
  | POST_register _ | POST_students _ | PUT_students _ _ | DELETE_students _ => false
  end.

Definition is_login (r : request) : bool :=
  match r with
  | POST_login _ => true
  | _ => false
  end.

Definition is_delete (r : request) : bool :=
  match r with
  | DELETE_students _ => true
  | _ => false
  end.

(** Whether a response announces a new row. *)
Definition announces_row (p : response) : bool :=
  match body p with
  | Created _ _ => true
  | _ => false
  end.

(** *** The register handler, callback by callback

    Between the callback of the lookup and the callback of the INSERT the
    service is free to run callbacks of other requests. *)

(** The handler up to the point where it hands the INSERT to storage: the
    callback of [db.get] and the callback of [bcrypt.hash].  It answers, or
    goes on with the hash. *)
Definition register_lookup (w : world) (st : state) (b : req.body)
    : response * list event + string :=
  match db_get w (db st) (req.email b) with
  | inl err =>
      inl (Response 500 (Failure "DB error" err), [Ran SELECT_BY_EMAIL (inl err)])
  | inr (Some _) =>
      inl (Response 400 (Message "User already exists"),
           [Ran SELECT_BY_EMAIL (inr 0%nat)])
  | inr None =>
      match bcrypt_hash w (req.password b) SALT_ROUNDS with
      | inl err =>
          inl (Response 500 (Failure "Hash error" err),
               [Ran SELECT_BY_EMAIL (inr 0%nat)])
      | inr hash => inr hash
      end
  end.

(** The INSERT and its callback, on the state that the service is in by
    then. *)
Definition register_insert (w : world) (st : state) (b : req.body)
    (hash : string) : outcome :=
  match db_insert w (db st) (req.firstName b) (req.lastName b)
          (req.username b) (req.email b) (req.contact b) (Some hash) with
  | inl err =>
      Outcome st (Response 500 (Failure "Insert error" err)) [Ran INSERT (inl err)]
  | inr (lastID, d) =>
      Outcome (State d (sessions st))
        (ok (Created "Registered successfully" lastID))
        [Ran INSERT (inr 1%nat)]
  end.

End Lifecycle.

(** ** The page: form, list and the objects they pass around *)

Module Page.
Import Server.

(** A JavaScript object holding JSON values: a student as the list route
    sent it, or the form under edit. *)
Abbreviation object := (gmap string value).

(** A member read off an object, or a state cell of type number | null:
    [None] is [undefined]. *)
Abbreviation member := (option value).

(** [==] and [!==] on two such values are equality and its negation. *)
Definition js_truthy (v : member) : bool :=
  match v with
  | None | Some VNull => false
  | Some (VInt z) => negb (bool_decide (z = 0))
  | Some (VText s) => negb (bool_decide (s = ""))
  end.

(** The initial value of the form cell, which [resetForm] restores. *)
Definition empty_form : object :=
  list_to_map [("firstName", VText ""); ("lastName", VText "");
               ("username", VText ""); ("email", VText "");
               ("contact", VText ""); ("password", VText "")].

(** The requests sent through the HTTP client; the identifier is the value
    spliced into the path. *)
Inductive api_call :=
  | api_get_students
  | api_post_register (student : object)
  | api_put_student (i : member) (updated : object)
  | api_delete_student (i : member).

Inductive settled :=
  | Resolved (status : nat) (data : list object)
  | Rejected (reason : string).

Abbreviation network := (nat → api_call → settled).

(** The page renders [useStudentForm], which calls [useStudents], and
    [StudentList], which calls [useStudents] again: two instances of the
    list cell and of the error cell. *)
Inductive instance := of_form | of_list.

Record page := PageState {
  form : object;
  editId : member;
  form_students : list object;
  form_error : option string;
  list_students : list object;
  list_error : option string;
  sent : list api_call
}.

Definition students (i : instance) (p : page) : list object :=
  match i with
  | of_form => form_students p
  | of_list => list_students p
  end.

Definition error (i : instance) (p : page) : option string :=
  match i with
  | of_form => form_error p
  | of_list => list_error p
  end.

(** What the page is right after it is first rendered. *)
Definition first_render : page :=
  PageState empty_form (Some VNull) [] None [] None [].

Definition async (A : Type) : Type := page → (A + string) * page.

Global Instance async_ret : MRet async := λ A a p, (inl a, p).

Global Instance async_bind : MBind async := λ A B k m p,
  match m p with
  | (inl a, p') => k a p'
  | (inr e, p') => (inr e, p')
  end.

Definition try_catch {A} (body : async A) (handler : string → async A) : async A :=
  λ p, match body p with
       | (inl a, p') => (inl a, p')
       | (inr e, p') => handler e p'
       end.

Definition read {A} (cell : page → A) : async A := λ p, (inl (cell p), p).

(** The setters take the updater form, [setX(prev => ...)]. *)
Definition setForm (f : object → object) : async unit :=
  λ p, (inl (), PageState (f (form p)) (editId p) (form_students p) (form_error p)
                  (list_students p) (list_error p) (sent p)).

Definition setEditId (i : member) : async unit :=
  λ p, (inl (), PageState (form p) i (form_students p) (form_error p)
                  (list_students p) (list_error p) (sent p)).

Definition setStudents (i : instance) (f : list object → list object) : async unit :=
  λ p, (inl (),
        match i with
        | of_form => PageState (form p) (editId p) (f (form_students p)) (form_error p)
                       (list_students p) (list_error p) (sent p)
        | of_list => PageState (form p) (editId p) (form_students p) (form_error p)
                       (f (list_students p)) (list_error p) (sent p)
        end).

Definition setError (i : instance) (m : string) : async unit :=
  λ p, (inl (),
        match i with
        | of_form => PageState (form p) (editId p) (form_students p) (Some m)
                       (list_students p) (list_error p) (sent p)
        | of_list => PageState (form p) (editId p) (form_students p) (form_error p)
                       (list_students p) (Some m) (sent p)
        end).

Definition await_api (net : network) (c : api_call) : async (nat * list object) :=
  λ p,
    let p' := PageState (form p) (editId p) (form_students p) (form_error p)
                (list_students p) (list_error p) (sent p ++ [c]) in
    match net (length (sent p)) c with
    | Resolved status data => (inl (status, data), p')
    | Rejected reason => (inr reason, p')
    end.

(** *** [useStudents] *)

Definition fetchStudents (net : network) (i : instance) : async unit :=
  try_catch
    (response ← await_api net api_get_students;
     setStudents i (λ _, response.2))
    (λ _, setError i "Failed to fetch students").

Definition addStudent (net : network) (i : instance) (student : object) : async unit :=
  try_catch
    (response ← await_api net (api_post_register student);
     if bool_decide (response.1 = 201%nat) || bool_decide (response.1 = 200%nat)
     then fetchStudents net i
     else mret ())
    (λ _, setError i "Failed to register student").

Definition updateStudent (net : network) (i : instance) (id : member)
    (updated : object) : async unit :=
  try_catch
    (response ← await_api net (api_put_student id updated);
     if bool_decide (response.1 = 200%nat)
     then fetchStudents net i
     else mret ())
    (λ _, setError i "Failed to update student").

Definition deleteStudent (net : network) (i : instance) (id : member) : async unit :=
  try_catch
    (response ← await_api net (api_delete_student id);
     if bool_decide (response.1 = 200%nat)
     then setStudents i (λ prev, filter (λ s, s !! "id" ≠ id) prev)
     else mret ())
    (λ _, setError i "Failed to delete student").

(** *** [useStudentForm] *)

(** [handleChange] for an input named [name] that now holds [value]. *)
Definition handleChange (name value : string) : async unit :=
  setForm (λ prev, <[name := VText value]> prev).

Definition resetForm : async unit :=
  setForm (λ _, empty_form);;
  setEditId (Some VNull).

Definition handleSubmit (net : network) : async unit :=
  i ← read editId;
  f ← read form;
  (if bool_decide (i ≠ Some VNull)
   then updateStudent net of_form i f
   else addStudent net of_form f);;
  resetForm.

(** The six inputs typed into, one after the other. *)
Definition typed (v1 v2 v3 v4 v5 v6 : string) : async unit :=
  handleChange "firstName" v1;; handleChange "lastName" v2;;
  handleChange "username" v3;; handleChange "email" v4;;
  handleChange "contact" v5;; handleChange "password" v6.

(** *** [StudentForm] *)

(** The six inputs that the form renders, in order. *)
Definition inputs : list string :=
  ["firstName"; "lastName"; "username"; "email"; "contact"; "password"].

(** The type of the input for [field]. *)
Definition input_type (field : string) : string :=
  if bool_decide (field = "password") then "password" else "text".

(** The text an input shows: [(form as any)[field] || ""]. *)
Definition input_value (f : object) (field : string) : string :=
  match f !! field with
  | Some (VText s) => s
  | Some (VInt z) => if bool_decide (z = 0) then "" else pretty z
  | Some VNull | None => ""
  end.

(** The label of the submit button: [editId ? "Update" : "Register"]. *)
Definition submit_label (i : member) : string :=
  if js_truthy i then "Update" else "Register".

(** *** [StudentList] *)

(** The Delete button of the entry [student]. *)
Definition click_delete (net : network) (student : object) : async unit :=
  deleteStudent net of_list (student !! "id").

(** The Update button of the entry [student]. *)
Definition click_update (student : object) : async unit :=
  setForm (λ _, student);;
  setEditId (student !! "id").

(** The page [p'] is the page [p] after the request [c] was sent and the
    message [m] was put in the error cell of instance [i], nothing else
    having changed. *)
Definition reported_in (i : instance) (m : string) (c : api_call) (p p' : page) : Prop :=
  error i p' = Some m
  ∧ match i with
    | of_form => list_error p' = list_error p
    | of_list => form_error p' = form_error p
    end
  ∧ form_students p' = form_students p
  ∧ list_students p' = list_students p
  ∧ form p' = form p
  ∧ editId p' = editId p
  ∧ sent p' = sent p ++ [c].

(** *** From the page to the service and back *)

(** A member of a request body as the route handlers see it; a number is
    outside what the handlers are modelled for. *)
Definition text_member (o : object) (k : string) : option field :=
  match o !! k with
  | None | Some VNull => Some None
  | Some (VText s) => Some (Some s)
  | Some (VInt _) => None
  end.

Definition body_of (o : object) : option req.body :=
  fn ← text_member o "firstName";
  ln ← text_member o "lastName";
  un ← text_member o "username";
  em ← text_member o "email";
  ct ← text_member o "contact";
  pw ← text_member o "password";
  Some (req.Body fn ln un em ct pw).

(** The request that arrives at the service for a call of the client, when
    the path segment is a number. *)
Definition request_of (c : api_call) : option request :=
  match c with
  | api_get_students => Some GET_students
  | api_post_register student => POST_register <$> body_of student
  | api_put_student (Some (VInt z)) updated => PUT_students z <$> body_of updated
  | api_delete_student (Some (VInt z)) => Some (DELETE_students z)
  | api_put_student _ _ | api_delete_student _ => None
  end.

(** The array that the client gets for the rows of a list response. *)
Definition parse_rows (rows : list obj) : list object :=
  (λ o : obj, list_to_map o) <$> rows.

(** The entries that the list route would send for a table. *)
Definition entries (d : database) : list object :=
  parse_rows (select_listed <$> Server.students d).

End Page.

(** ** The toggle switch *)

Module Toggle.

(** The state cell of the component and the values passed to [onChange] so
    far. *)
Record toggle := Toggle {
  internalChecked : bool;
  reported : list bool
}.

(** The props: [checked] may be absent, [onChange] may be absent. *)
Record props := Props {
  checked : option bool;
  has_onChange : bool;
  disabled : bool
}.

Definition isControlled (pr : props) : bool :=
  match checked pr with
  | Some _ => true
  | None => false
  end.

Definition isOn (pr : props) (t : toggle) : bool :=
  match checked pr with
  | Some c => c
  | None => internalChecked t
  end.

Definition handleClick (pr : props) (t : toggle) : toggle :=
  if disabled pr then t
  else
    Toggle
      (if isControlled pr then internalChecked t else negb (internalChecked t))
      (if has_onChange pr then reported t ++ [negb (isOn pr t)] else reported t).

(** A series of clicks, each under the props of the render it happens in. *)
Definition clicks (prs : list props) (t : toggle) : toggle :=
  foldl (λ t pr, handleClick pr t) t prs.

(** The background colour of the button. *)
Definition backgroundColor (pr : props) (t : toggle) : string :=
  if isOn pr t then "#4ade80" else "#d1d5db".

End Toggle.

(** ** Properties of the API service *)

Module ServerFacts.
Import Server.

(** [String.append] is never unfolded by [simpl]; this does one round. *)
Ltac append_step := unfold String.append; fold String.append.


(** *** Storage lemmas *)

Lemma sql_eq_true a b : sql_eq a b = true ↔ ∃ s, a = Some s ∧ b = Some s.
Proof.
  destruct a as [x|], b as [y|]; simpl; split; try discriminate.
  - intros H. apply bool_decide_eq_true in H. subst. by exists y.
  - intros (s & [= ->] & [= ->]). by apply bool_decide_eq_true.
  - by intros (s & _ & ?).
  - by intros (s & ? & _).
  - by intros (s & ? & _).
Qed.

Lemma sql_eq_sym a b : sql_eq a b = sql_eq b a.
Proof.
  destruct a as [x|], b as [y|]; simpl; try done.
  apply bool_decide_ext. naive_solver.
Qed.

Lemma sql_eq_null_r a : sql_eq a None = false.
Proof. by destruct a. Qed.

Lemma select_null d : select_by_email None d = None.
Proof.
  unfold select_by_email. induction (students d) as [|r rs IH]; [done|].
  simpl. by rewrite sql_eq_null_r.
Qed.

Lemma find_none_forall (rs : list row) e :
  find (λ r, sql_eq (email r) e) rs = None ↔
  ∀ r, r ∈ rs → sql_eq (email r) e = false.
Proof.
  induction rs as [|r rs IH]; simpl.
  - split; [intros _ r Hr; by apply elem_of_nil in Hr | done].
  - destruct (sql_eq (email r) e) eqn:E.
    + split; [done|]. intros H. specialize (H r (list_elem_of_here _ _)). congruence.
    + rewrite IH. split.
      * intros H r' [->|Hr']%elem_of_cons; auto.
      * intros H r' Hr'. apply H. by apply list_elem_of_further.
Qed.

Lemma find_some_elem (rs : list row) e u :
  find (λ r, sql_eq (email r) e) rs = Some u →
  u ∈ rs ∧ sql_eq (email u) e = true.
Proof.
  induction rs as [|r rs IH]; simpl; [done|].
  destruct (sql_eq (email r) e) eqn:E.
  - intros [= <-]. split; [apply list_elem_of_here | done].
  - intros [? ?]%IH. split; [by apply list_elem_of_further | done].
Qed.

Lemma email_free_forall e (rs : list row) :
  email_free e rs = true ↔ ∀ r, r ∈ rs → sql_eq (email r) e = false.
Proof.
  unfold email_free. rewrite forallb_forall. split.
  - intros H r Hr. apply list_elem_of_In in Hr. apply H in Hr.
    by apply negb_true_iff in Hr.
  - intros H r Hr. apply negb_true_iff, H. by apply list_elem_of_In.
Qed.

Lemma select_none_free e d :
  select_by_email e d = None → email_free e (students d) = true.
Proof.
  unfold select_by_email. rewrite find_none_forall. by rewrite email_free_forall.
Qed.

Lemma find_app_fresh (rs : list row) e r :
  find (λ r, sql_eq (email r) e) rs = None →
  sql_eq (email r) e = true →
  find (λ r, sql_eq (email r) e) (rs ++ [r]) = Some r.
Proof.
  induction rs as [|r' rs IH]; simpl; intros Hn He.
  - by rewrite He.
  - destruct (sql_eq (email r') e); [done | by apply IH].
Qed.

Lemma max_rowid_ge (rs : list row) r : r ∈ rs → id r ≤ max_rowid rs.
Proof.
  induction rs as [|r' rs IH]; simpl.
  - by intros ?%elem_of_nil.
  - intros [->|Hr]%elem_of_cons; [lia|]. apply IH in Hr. lia.
Qed.

Lemma next_rowid_fresh d r : r ∈ students d → id r < next_rowid d.
Proof. intros H%max_rowid_ge. unfold next_rowid. lia. Qed.

Lemma apart_distinct rs : apart rs ↔ distinct_emails rs.
Proof.
  unfold distinct_emails. induction rs as [|r rs IH]; simpl.
  - split; [intros _ j k r1 r2 _ Hj; by rewrite lookup_nil in Hj | done].
  - rewrite IH. split.
    + intros [Hr Hrs] [|j] [|k] r1 r2 Hne; simpl; intros H1 H2; try done.
      * injection H1 as <-. apply Hr. by eapply list_elem_of_lookup_2.
      * injection H2 as <-. rewrite sql_eq_sym. apply Hr.
        by eapply list_elem_of_lookup_2.
      * apply (Hrs j k); auto.
    + intros H. split.
      * intros r' [k Hk]%list_elem_of_lookup_1. by apply (H 0%nat (S k)).
      * intros j k r1 r2 Hne H1 H2. apply (H (S j) (S k)); auto.
Qed.

Lemma apart_snoc rs r :
  apart rs → (∀ r', r' ∈ rs → sql_eq (email r') (email r) = false) →
  apart (rs ++ [r]).
Proof.
  induction rs as [|r0 rs IH]; simpl; intros Hrs Hr.
  - split; [|done]. by intros r' ?%elem_of_nil.
  - destruct Hrs as [H0 Hrs]. split.
    + intros r' [Hr' | ->%list_elem_of_singleton]%elem_of_app; [by apply H0|].
      apply Hr, list_elem_of_here.
    + apply IH; [done|]. intros r' Hr'. by apply Hr, list_elem_of_further.
Qed.

Lemma apart_filter (P : row → Prop) `{∀ r, Decision (P r)} rs :
  apart rs → apart (filter P rs).
Proof.
  induction rs as [|r rs IH]; [done|]. intros [Hr Hrs]. rewrite filter_cons.
  destruct (decide (P r)); [|by apply IH]. split; [|by apply IH].
  intros r' [_ Hr']%list_elem_of_filter. by apply Hr.
Qed.

Lemma set_columns_id i fn ln un em ct pw r :
  id (set_columns i fn ln un em ct pw r) = id r.
Proof. unfold set_columns. by case_bool_decide. Qed.

Lemma set_columns_ids i fn ln un em ct pw (rs : list row) :
  id <$> (set_columns i fn ln un em ct pw <$> rs) = id <$> rs.
Proof.
  rewrite <- list_fmap_compose. apply list_fmap_ext.
  intros _ r _. apply set_columns_id.
Qed.

Lemma update_conflict_false i em (rs : list row) :
  update_conflict i em rs = false ↔
  (∀ r, r ∈ rs → id r ≠ i) ∨
  (∀ r, r ∈ rs → id r ≠ i → sql_eq (email r) em = false).
Proof.
  unfold update_conflict. rewrite andb_false_iff.
  rewrite <- !not_true_iff_false, !existsb_exists. split.
  - intros [H|H]; [left|right]; intros r Hr%list_elem_of_In.
    + intros Hi. apply H. exists r. split; [done|]. by apply bool_decide_eq_true.
    + intros Hi. apply not_true_iff_false. intros He. apply H. exists r.
      split; [done|]. apply andb_true_iff. split; [|done].
      by apply bool_decide_eq_true.
  - intros [H|H]; [left|right]; intros (r & Hr%list_elem_of_In & Hx).
    + apply bool_decide_eq_true in Hx. by apply (H r).
    + apply andb_true_iff in Hx as [Hi%bool_decide_eq_true He].
      rewrite (H r) in He; done.
Qed.

Lemma set_columns_absent i fn ln un em ct pw (rs : list row) :
  (∀ r, r ∈ rs → id r ≠ i) → set_columns i fn ln un em ct pw <$> rs = rs.
Proof.
  intros H. induction rs as [|r rs IH]; [done|]. simpl. f_equal.
  - unfold set_columns. rewrite bool_decide_eq_false_2; [done|].
    apply H, list_elem_of_here.
  - apply IH. intros r' Hr'. by apply H, list_elem_of_further.
Qed.

Lemma count_id_absent i (rs : list row) : (∀ r, r ∈ rs → id r ≠ i) → count_id i rs = 0%nat.
Proof.
  unfold count_id. intros H. induction rs as [|r rs IH]; [done|].
  rewrite filter_cons_False; [|apply H, list_elem_of_here].
  apply IH. intros r' Hr'. by apply H, list_elem_of_further.
Qed.

Lemma apart_set_columns i fn ln un em ct pw (rs : list row) :
  NoDup (id <$> rs) → apart rs →
  (∀ r, r ∈ rs → id r ≠ i → sql_eq (email r) em = false) →
  apart (set_columns i fn ln un em ct pw <$> rs).
Proof.
  induction rs as [|r rs IH]; [done|]. simpl.
  intros [Hid Hnd]%NoDup_cons [Hr Hrs] Hem. split.
  - intros r'' (r' & -> & Hr')%list_elem_of_fmap. unfold set_columns.
    repeat case_bool_decide; simpl.
    + exfalso. apply Hid. apply list_elem_of_fmap. exists r'. split; [congruence|done].
    + rewrite sql_eq_sym. apply Hem; [by apply list_elem_of_further | done].
    + apply Hem; [apply list_elem_of_here | done].
    + by apply Hr.
  - apply IH; auto. intros r' Hr'. by apply Hem, list_elem_of_further.
Qed.

(** *** Every statement keeps the table consistent *)

Lemma db_insert_consistent w d fn ln un em ct pw i d' :
  consistent d → db_insert w d fn ln un em ct pw = inr (i, d') → consistent d'.
Proof.
  intros [Hid Hem]. unfold db_insert.
  destruct (run_err w); [done|].
  destruct (email_free em (students d)) eqn:Hfree; [|done].
  intros [= <- <-]. pose proof (proj1 (email_free_forall _ _) Hfree) as Hnew.
  split; simpl.
  - rewrite fmap_app. apply NoDup_app. split_and!; [done| |apply NoDup_singleton].
    intros x (r & -> & Hr)%list_elem_of_fmap [=]%list_elem_of_singleton.
    apply next_rowid_fresh in Hr. lia.
  - apply apart_distinct, apart_snoc; [by apply apart_distinct | done].
Qed.

Lemma db_update_consistent w d i fn ln un em ct pw n d' :
  consistent d → db_update w d i fn ln un em ct pw = inr (n, d') → consistent d'.
Proof.
  intros [Hid Hem]. unfold db_update.
  destruct (run_err w); [done|].
  destruct (update_conflict i em (students d)) eqn:Hc; [done|].
  intros [= <- <-]. destruct (proj1 (update_conflict_false _ _ _) Hc) as [Ha|Ha].
  - rewrite set_columns_absent by done. by split.
  - split; simpl.
    + by rewrite set_columns_ids.
    + apply apart_distinct, apart_set_columns; [done | by apply apart_distinct | done].
Qed.

Lemma db_delete_consistent w d i n d' :
  consistent d → db_delete w d i = inr (n, d') → consistent d'.
Proof.
  intros [Hid Hem]. unfold db_delete.
  destruct (run_err w); [done|]. intros [= <- <-]. split; simpl.
  - eapply sublist_NoDup; [exact Hid|]. apply fmap_sublist, sublist_filter.
  - apply apart_distinct, apart_filter. by apply apart_distinct.
Qed.

(** *** Every handler keeps the state consistent *)

Lemma db_get_calm w d e : get_err w = None → db_get w d e = inr (select_by_email e d).
Proof. unfold db_get. by intros ->. Qed.

Lemma db_get_found w d e u : db_get w d e = inr (Some u) → ∃ s, e = Some s.
Proof.
  unfold db_get. destruct (get_err w); [done|]. intros [= H].
  destruct e as [s|]; [by exists s|]. by rewrite select_null in H.
Qed.

Lemma handle_consistent w st r :
  consistent (db st) → consistent (db (next (handle w st r))).
Proof.
  intros Hc. destruct r as [b|b|a| |b| |i b|i]; simpl;
    unfold register, login, profile, status_check, create, list_students,
      update, delete_student;
    repeat case_match; simpl; try done.
  - eapply db_insert_consistent; eauto.
  - eapply db_insert_consistent; eauto.
  - eapply db_update_consistent; eauto.
  - eapply db_delete_consistent; eauto.
Qed.

Lemma handle_minted w st r :
  minted (sessions st) → minted (sessions (next (handle w st r))).
Proof.
  intros Hm. destruct r as [b|b|a| |b| |i b|i]; simpl;
    unfold register, login, profile, status_check, create, list_students,
      update, delete_student;
    repeat case_match; simpl; try done.
  match goal with H : db_get _ _ _ = inr (Some _) |- _ =>
    destruct (db_get_found _ _ _ _ H) as [e He] end.
  rewrite He. simpl. intros k v. rewrite lookup_insert.
  case_decide as Hk; [|by apply Hm].
  intros [= <-]. exists e, (Date_now w). by split.
Qed.

Lemma serve_snoc st rs w r :
  serve st (rs ++ [(w, r)]) = next (handle w (serve st rs) r).
Proof. unfold serve. by rewrite foldl_app. Qed.

Lemma serve_consistent st rs : consistent (db st) → consistent (db (serve st rs)).
Proof.
  intros Hc. induction rs as [|[w r] rs IH] using rev_ind; [done|].
  rewrite serve_snoc. by apply handle_consistent.
Qed.

Lemma serve_minted st rs : minted (sessions st) → minted (sessions (serve st rs)).
Proof.
  intros Hm. induction rs as [|[w r] rs IH] using rev_ind; [done|].
  rewrite serve_snoc. by apply handle_minted.
Qed.

Lemma boot_consistent : consistent (db boot).
Proof.
  split; simpl; [apply NoDup_nil_2|]. intros j k r1 r2 _ H. by rewrite lookup_nil in H.
Qed.

Lemma boot_minted : minted (sessions boot).
Proof. intros k v H. simpl in H. by rewrite lookup_empty in H. Qed.

Lemma select_present e (d : database) r :
  r ∈ students d → email r = Some e → ∃ u, select_by_email (Some e) d = Some u.
Proof.
  intros Hr He. unfold select_by_email.
  destruct (find _ (students d)) as [u|] eqn:Hf; [by exists u|].
  pose proof (proj1 (find_none_forall _ _) Hf r Hr) as Hx.
  rewrite He in Hx. simpl in Hx. by rewrite bool_decide_eq_true_2 in Hx.
Qed.

(** The row that an insert appends. *)
Lemma db_insert_fresh w d fn ln un em ct pw :
  run_err w = None → select_by_email em d = None →
  db_insert w d fn ln un em ct pw =
  inr (next_rowid d,
       Database (students d ++ [Row (next_rowid d) fn ln un em ct pw])
         (next_rowid d)).
Proof.
  intros Hr Hfresh. unfold db_insert. rewrite Hr.
  by rewrite (select_none_free _ _ Hfresh).
Qed.

Lemma register_fresh w st b p :
  req.password b = Some p →
  select_by_email (req.email b) (db st) = None → calm w →
  register w st b =
  Outcome
    (State (Database
              (students (db st) ++
                 [Row (next_rowid (db st)) (req.firstName b) (req.lastName b)
                    (req.username b) (req.email b) (req.contact b)
                    (Some (bcrypt_digest w p SALT_ROUNDS))])
              (next_rowid (db st))) (sessions st))
    (ok (Created "Registered successfully" (next_rowid (db st))))
    [Ran SELECT_BY_EMAIL (inr 0%nat); Ran INSERT (inr 1%nat)].
Proof.
  intros Hp Hfresh [Hg Hr]. unfold register.
  rewrite db_get_calm by done. rewrite Hfresh, Hp. simpl.
  by rewrite db_insert_fresh.
Qed.

Lemma create_fresh w st b :
  select_by_email (req.email b) (db st) = None → calm w →
  create w st b =
  Outcome
    (State (Database
              (students (db st) ++
                 [Row (next_rowid (db st)) (req.firstName b) (req.lastName b)
                    (req.username b) (req.email b) (req.contact b)
                    (req.password b)])
              (next_rowid (db st))) (sessions st))
    (ok (Created "Student inserted" (next_rowid (db st))))
    [Ran SELECT_BY_EMAIL (inr 0%nat); Ran INSERT (inr 1%nat)].
Proof.
  intros Hfresh [Hg Hr]. unfold create.
  rewrite db_get_calm by done. rewrite Hfresh.
  by rewrite db_insert_fresh.
Qed.

(** A registration that answers 200 appended one row, under the identifier
    in the answer. *)
Lemma register_created w st b m i :
  reply (register w st b) = ok (Created m i) →
  ∃ h, i = next_rowid (db st)
       ∧ students (db (next (register w st b)))
         = students (db st) ++
             [Row i (req.firstName b) (req.lastName b) (req.username b)
                (req.email b) (req.contact b) (Some h)].
Proof.
  unfold register, db_insert. repeat case_match; simpl; try done.
  intros [= _ <-]. simplify_eq. eexists. split; [done|]. simpl. done.
Qed.

(** *** Registration and the uniqueness of emails *)

(** C1, as amended.  Starting from a consistent table, after any sequence
    of requests no two stored rows that hold an email hold the same one
    (rows whose email is NULL are not compared).  A register or
    students-create request whose email is a string held by a stored row
    leaves the state as it was and issues no write, whatever storage does,
    and is answered 400 when the lookup itself succeeds.  Registering a
    fresh string email twice, with a string password and storage reporting
    no error, answers 200 with the new identifier, then 400, and the table
    is one row longer. *)
Theorem email_uniqueness (st0 st : state) (rs : list (world * request))
    (w1 w2 : world) (b : req.body) (e p : string) :
  (consistent (db st0) → distinct_emails (students (db (serve st0 rs))))
  ∧ (req.email b = Some e →
     (∃ r, r ∈ students (db st) ∧ email r = Some e) →
     (next (register w1 st b) = st ∧ existsb wrote (calls (register w1 st b)) = false
      ∧ next (create w1 st b) = st ∧ existsb wrote (calls (create w1 st b)) = false)
     ∧ (get_err w1 = None →
        reply (register w1 st b) = Response 400 (Message "User already exists")
        ∧ reply (create w1 st b) = Response 400 (Message "Student already exists")))
  ∧ (req.email b = Some e → req.password b = Some p →
     select_by_email (Some e) (db st) = None →
     calm w1 → get_err w2 = None →
     let first := register w1 st b in
     let second := register w2 (next first) b in
     reply first = ok (Created "Registered successfully" (next_rowid (db st)))
     ∧ reply second = Response 400 (Message "User already exists")
     ∧ length (students (db (next second))) = S (length (students (db st)))).
Proof.
  split_and!.
  - intros Hc. by apply serve_consistent.
  - intros He (r & Hr & Hre).
    destruct (select_present e (db st) r Hr Hre) as [u Hu].
    unfold register, create, db_get. rewrite He, Hu.
    split; [by destruct (get_err w1)|]. by intros ->.
  - intros He Hp Hfresh Hcalm Hg2. simpl.
    rewrite (register_fresh w1 st b p) by (by rewrite ?He). rewrite He.
    simpl. unfold register. rewrite db_get_calm by done. rewrite He.
    unfold select_by_email. simpl.
    rewrite (find_app_fresh _ _ _ Hfresh); simpl.
    + split_and!; [done..|]. rewrite length_app. simpl. lia.
    + by apply bool_decide_eq_true.
Qed.

(** Ada registers, Bob is created and then tries to take Ada's email; Ada
    registers a second time. *)
Lemma email_uniqueness_witness :
  distinct_emails
    (students (db (serve boot
       [(quiet, POST_register ada); (quiet, POST_students bob);
        (quiet, PUT_students 2 ada); (quiet, POST_login ada)])))
  ∧ next (create unreadable (serve boot [(quiet, POST_register ada)]) ada)
    = serve boot [(quiet, POST_register ada)]
  ∧ reply (create quiet (serve boot [(quiet, POST_register ada)]) ada)
    = Response 400 (Message "Student already exists")
  ∧ reply (register quiet boot ada) = ok (Created "Registered successfully" 1)
  ∧ reply (register quiet (next (register quiet boot ada)) ada)
    = Response 400 (Message "User already exists")
  ∧ length (students (db (next (register quiet (next (register quiet boot ada)) ada))))
    = 1%nat.
Proof.
  pose proof (email_uniqueness boot boot
    [(quiet, POST_register ada); (quiet, POST_students bob);
     (quiet, PUT_students 2 ada); (quiet, POST_login ada)]
    quiet quiet ada "ada@example.org" "enchantress") as (Hinv & _ & Htwice).
  pose proof (email_uniqueness boot (serve boot [(quiet, POST_register ada)]) []
    unreadable quiet ada "ada@example.org" "enchantress") as (_ & Hdup & _).
  pose proof (email_uniqueness boot (serve boot [(quiet, POST_register ada)]) []
    quiet quiet ada "ada@example.org" "enchantress") as (_ & Hdup' & _).
  assert (∃ r, r ∈ students (db (serve boot [(quiet, POST_register ada)]))
               ∧ email r = Some "ada@example.org") as Hheld.
  { eexists. split; [apply list_elem_of_here | reflexivity]. }
  destruct (Hdup eq_refl Hheld) as [(_ & _ & Hsame & _) _].
  destruct (Hdup' eq_refl Hheld) as [_ Hrej].
  destruct (Hrej eq_refl) as [_ Hrej'].
  destruct (Htwice eq_refl eq_refl eq_refl (conj eq_refl eq_refl) eq_refl)
    as (H1 & H2 & H3).
  split_and!.
  - exact (Hinv boot_consistent).
  - exact Hsame.
  - exact Hrej'.
  - exact H1.
  - exact H2.
  - exact H3.
Defined.

(** A request without an email holds no email: the lookup compares with
    NULL and finds nothing, and UNIQUE admits any number of NULLs, so two
    such registrations are both stored. *)
Remark register_without_email :
  email <$> students (db (serve boot
    [(quiet, POST_register (req.Body (Some "A") None None None None (Some "pw")));
     (quiet, POST_register (req.Body (Some "B") None None None None (Some "pw")))]))
  = [None; None].
Proof. reflexivity. Qed.

(** C1 as the claim words it fails for requests that carry no email: the
    same registration sent twice is answered 200 both times, the table
    gains two rows, the table reached is consistent, and the emails of its
    rows are not pairwise distinct. *)
Lemma registering_twice_without_email :
  reply (register quiet boot
           (req.Body (Some "Nemo") None None None None (Some "pw")))
  = ok (Created "Registered successfully" 1)
  ∧ reply (register quiet
             (serve boot [(quiet, POST_register
                             (req.Body (Some "Nemo") None None None None (Some "pw")))])
             (req.Body (Some "Nemo") None None None None (Some "pw")))
    = ok (Created "Registered successfully" 2)
  ∧ email <$> students (db (serve boot
      [(quiet, POST_register (req.Body (Some "Nemo") None None None None (Some "pw")));
       (quiet, POST_register (req.Body (Some "Nemo") None None None None (Some "pw")))]))
    = [None; None]
  ∧ bool_decide (NoDup (email <$> students (db (serve boot
      [(quiet, POST_register (req.Body (Some "Nemo") None None None None (Some "pw")));
       (quiet, POST_register (req.Body (Some "Nemo") None None None None (Some "pw")))]))))
    = false
  ∧ consistent (db (serve boot
      [(quiet, POST_register (req.Body (Some "Nemo") None None None None (Some "pw")));
       (quiet, POST_register (req.Body (Some "Nemo") None None None None (Some "pw")))])).
Proof.
  split_and!; [by vm_compute..|]. apply serve_consistent, boot_consistent.
Qed.

(** *** Login *)

(** C2.  A login for an email that no stored row holds and a login for a
    stored email whose password does not verify get the same response, 401
    with the message "Invalid credentials", and neither changes the
    state. *)
Theorem login_failures_alike (w1 w2 : world) (st1 st2 : state)
    (b1 b2 : req.body) (user : row) :
  get_err w1 = None → get_err w2 = None →
  select_by_email (req.email b1) (db st1) = None →
  select_by_email (req.email b2) (db st2) = Some user →
  bcrypt_compare w2 (req.password b2) (password user) ≠ inr true →
  reply (login w1 st1 b1) = Response 401 (Message "Invalid credentials")
  ∧ reply (login w2 st2 b2) = reply (login w1 st1 b1)
  ∧ next (login w1 st1 b1) = st1
  ∧ next (login w2 st2 b2) = st2.
Proof.
  intros Hg1 Hg2 Hnone Hsome Hbad. unfold login.
  rewrite !db_get_calm by done. rewrite Hnone, Hsome.
  destruct (bcrypt_compare w2 (req.password b2) (password user)) as [err|[|]];
    simpl; try done.
Qed.

(** Bob was never registered; Ada was, and mistypes her password. *)
Lemma login_failures_alike_witness :
  reply (login quiet (serve boot [(quiet, POST_register ada)]) bob)
  = Response 401 (Message "Invalid credentials")
  ∧ reply (login quiet (serve boot [(quiet, POST_register ada)])
             (req.Body None None None (Some "ada@example.org") None (Some "guess")))
    = reply (login quiet (serve boot [(quiet, POST_register ada)]) bob).
Proof.
  destruct (login_failures_alike quiet quiet
    (serve boot [(quiet, POST_register ada)])
    (serve boot [(quiet, POST_register ada)])
    bob (req.Body None None None (Some "ada@example.org") None (Some "guess"))
    (Row 1 (Some "Ada") (Some "Lovelace") (Some "ada") (Some "ada@example.org")
       (Some "0917") (Some "$2b$10$enchantress")))
    as (H1 & H2 & _); try reflexivity.
  - vm_compute. discriminate.
  - split; [exact H1 | exact H2].
Defined.

Lemma pretty_N_go_no_dash (x : N) s : no_dash s → no_dash (pretty_N_go x s).
Proof.
  revert s. induction (N.lt_wf_0 x) as [x _ IH]. intros s Hs.
  destruct (decide (x = 0)%N) as [->|Hx]; [by rewrite pretty_N_go_0|].
  rewrite pretty_N_go_step by lia. apply IH.
  - apply N.div_lt; lia.
  - split; [|done]. unfold pretty_N_char. by repeat case_match.
Qed.

Lemma pretty_no_dash (n : N) : no_dash (pretty n).
Proof.
  unfold pretty, pretty_N. case_decide; [by split|].
  by apply pretty_N_go_no_dash.
Qed.

Lemma no_dash_app_dash a b : ¬ no_dash (a +:+ "-" +:+ b).
Proof.
  induction a as [|c a IH]; append_step; simpl; [by intros [? _] | by intros [_ ?]].
Qed.

Lemma token_inj e1 e2 d1 d2 :
  no_dash d1 → no_dash d2 →
  e1 +:+ "-" +:+ d1 = e2 +:+ "-" +:+ d2 → e1 = e2 ∧ d1 = d2.
Proof.
  intros H1 H2. revert e2.
  induction e1 as [|c e1 IH]; intros [|c' e2] Ht.
  - revert Ht. append_step. by intros [= ->].
  - exfalso. apply (no_dash_app_dash e2 d2).
    revert Ht. append_step. by intros [= _ <-].
  - exfalso. apply (no_dash_app_dash e1 d1).
    revert Ht. append_step. by intros [= _ ->].
  - assert (c = c' ∧ e1 +:+ "-" +:+ d1 = e2 +:+ "-" +:+ d2) as [-> Ht'].
    { revert Ht. unfold String.append at 1 3. fold String.append.
      by intros [= -> ->]. }
    by destruct (IH _ Ht') as [-> ->].
Qed.

(** C7, as amended.  When a stored row holds the email and the password
    verifies against its hash, login answers 200 with a token that is the
    email, a hyphen and the current time in decimal; the session object
    gains the entry token ↦ email, every entry it had before is still there
    with the same value, and the table is untouched. *)
Theorem login_mints (w : world) (st : state) (b : req.body) (user : row) :
  get_err w = None →
  select_by_email (req.email b) (db st) = Some user →
  bcrypt_compare w (req.password b) (password user) = inr true →
  minted (sessions st) →
  ∃ e,
    let token := e +:+ "-" +:+ pretty (Date_now w) in
    req.email b = Some e
    ∧ reply (login w st b) = ok (Token token)
    ∧ sessions (next (login w st b)) = <[token := Some e]> (sessions st)
    ∧ (∀ k v, sessions st !! k = Some v →
              sessions (next (login w st b)) !! k = Some v)
    ∧ db (next (login w st b)) = db st.
Proof.
  intros Hg Hu Hv Hm.
  destruct (req.email b) as [e|] eqn:He; [|by rewrite select_null in Hu].
  exists e. unfold login. rewrite db_get_calm by done. rewrite He, Hu, Hv. simpl.
  split_and!; try done.
  intros k v Hk. rewrite lookup_insert. case_decide as Heq; [|done].
  subst k. destruct (Hm _ _ Hk) as (e' & n & -> & Ht).
  apply token_inj in Ht as [-> _]; [done|apply pretty_no_dash..].
Qed.

(** Ada logs in a second time, half a second after the first. *)
Lemma login_mints_witness :
  ∃ e,
    req.email ada = Some e
    ∧ reply (login quiet (serve boot
               [(quiet, POST_register ada);
                (World 1699999999500 (bcrypt_digest quiet) (bcrypt_verify quiet)
                   None None (object_text quiet), POST_login ada)]) ada)
      = ok (Token (e +:+ "-" +:+ pretty (Date_now quiet))).
Proof.
  destruct (login_mints quiet
    (serve boot
       [(quiet, POST_register ada);
        (World 1699999999500 (bcrypt_digest quiet) (bcrypt_verify quiet)
           None None (object_text quiet), POST_login ada)])
    ada
    (Row 1 (Some "Ada") (Some "Lovelace") (Some "ada") (Some "ada@example.org")
       (Some "0917") (Some "$2b$10$enchantress")))
    as (e & He & Hr & _); try reflexivity.
  - apply serve_minted, boot_minted.
  - exists e. split; [exact He | exact Hr].
Defined.

(** The token of C7 as the claim words it, the email directly followed by
    the time, is not the token that login returns. *)
Lemma login_token_has_hyphen :
  reply (login quiet (serve boot [(quiet, POST_register ada)]) ada)
  = ok (Token "ada@example.org-1700000000000")
  ∧ js_string (req.email ada) +:+ pretty (Date_now quiet)
    = "ada@example.org1700000000000"
  ∧ bool_decide ("ada@example.org-1700000000000" = "ada@example.org1700000000000")
    = false.
Proof. vm_compute. done. Qed.

(** *** Profile *)

Lemma js_get_own ss k f : ss !! k = Some f → js_get ss k = js_field f.
Proof. unfold js_get. by intros ->. Qed.

Lemma truthy_string e : e ≠ "" → truthy (JString e) = true.
Proof. intros He. simpl. by rewrite bool_decide_eq_false_2. Qed.

(** Where the profile route does what is meant.  Register a fresh,
    non-empty email, log in with the same password so that it verifies, and
    ask for the profile with the token that login returned: the answer is
    the full row that the registration stored.  A token that is neither a
    key of the session object nor the name of a member that every object
    inherits is answered 401 without a look at storage.  A token whose
    entry holds a non-empty email that no stored row has any more is
    answered 404. *)
Theorem profile_resolves (w1 w2 w3 w : world) (st st' : state) (b : req.body)
    (e p e' : string) (authorization : option string) :
  (req.email b = Some e → e ≠ "" → req.password b = Some p →
   select_by_email (Some e) (db st) = None →
   calm w1 → get_err w2 = None → get_err w3 = None →
   bcrypt_verify w2 p (bcrypt_digest w1 p SALT_ROUNDS) = true →
   let stored :=
     Row (next_rowid (db st)) (req.firstName b) (req.lastName b)
       (req.username b) (Some e) (req.contact b)
       (Some (bcrypt_digest w1 p SALT_ROUNDS)) in
   let token := e +:+ "-" +:+ pretty (Date_now w2) in
   let registered := next (register w1 st b) in
   let logged_in := next (login w2 registered b) in
   students (db registered) = students (db st) ++ [stored]
   ∧ reply (login w2 registered b) = ok (Token token)
   ∧ reply (profile w3 logged_in (Some token)) = ok (Profile (select_star stored)))
  ∧ (sessions st' !! js_key authorization = None →
     js_key authorization ∉ Object_prototype →
     profile w st' authorization
     = Outcome st' (Response 401 (Message "Unauthorized")) [])
  ∧ (sessions st' !! js_key authorization = Some (Some e') → e' ≠ "" →
     get_err w = None → select_by_email (Some e') (db st') = None →
     reply (profile w st' authorization) = Response 404 (Message "User not found")
     ∧ next (profile w st' authorization) = st').
Proof.
  split_and!.
  - intros He Hne Hp Hfresh Hcalm Hg2 Hg3 Hv. simpl.
    rewrite (register_fresh w1 st b p) by (by rewrite ?He). rewrite He. simpl.
    assert (select_by_email (Some e)
              (Database
                 (students (db st) ++
                    [Row (next_rowid (db st)) (req.firstName b) (req.lastName b)
                       (req.username b) (Some e) (req.contact b)
                       (Some (bcrypt_digest w1 p SALT_ROUNDS))])
                 (next_rowid (db st)))
            = Some (Row (next_rowid (db st)) (req.firstName b) (req.lastName b)
                      (req.username b) (Some e) (req.contact b)
                      (Some (bcrypt_digest w1 p SALT_ROUNDS)))) as Hsel.
    { unfold select_by_email. simpl. apply find_app_fresh; [done|].
      simpl. by apply bool_decide_eq_true. }
    unfold login. rewrite db_get_calm by done. cbn [db next sessions].
    rewrite He, Hsel, Hp. simpl. rewrite Hv. cbn [db next sessions reply].
    split_and!; [done..|].
    unfold profile. cbn [db next sessions js_key js_string].
    rewrite (js_get_own _ _ (Some e)) by apply lookup_insert_eq.
    cbn [js_field bind]. rewrite truthy_string by done. cbn [negb].
    rewrite db_get_calm by done. by rewrite Hsel.
  - intros Hnone Hproto. unfold profile, js_get. rewrite Hnone.
    by rewrite bool_decide_eq_false_2.
  - intros Hsome Hne Hg Hgone. unfold profile.
    rewrite (js_get_own _ _ _ Hsome). simpl js_field.
    rewrite truthy_string by done. simpl.
    rewrite db_get_calm by done. by rewrite Hgone.
Qed.

(** Ada registers, logs in and reads her profile; a made-up token is
    refused; Bob's row is deleted while his session lives on. *)
Lemma profile_resolves_witness :
  reply (profile quiet
           (serve boot [(quiet, POST_register ada); (quiet, POST_login ada)])
           (Some "ada@example.org-1700000000000"))
  = ok (Profile
          [("id", VInt 1); ("firstName", VText "Ada"); ("lastName", VText "Lovelace");
           ("username", VText "ada"); ("email", VText "ada@example.org");
           ("contact", VText "0917"); ("password", VText "$2b$10$enchantress")])
  ∧ reply (profile quiet
             (serve boot [(quiet, POST_register ada); (quiet, POST_login ada)])
             (Some "ada@example.org-1"))
    = Response 401 (Message "Unauthorized")
  ∧ reply (profile quiet
             (serve boot [(quiet, POST_register bob); (quiet, POST_login bob);
                          (quiet, DELETE_students 1)])
             (Some "bob@example.org-1700000000000"))
    = Response 404 (Message "User not found").
Proof.
  pose proof (profile_resolves quiet quiet quiet quiet boot
    (serve boot [(quiet, POST_register ada); (quiet, POST_login ada)])
    ada "ada@example.org" "enchantress" "" (Some "ada@example.org-1"))
    as (Ha & Hb & _).
  pose proof (profile_resolves quiet quiet quiet quiet boot
    (serve boot [(quiet, POST_register bob); (quiet, POST_login bob);
                 (quiet, DELETE_students 1)])
    ada "" "" "bob@example.org" (Some "bob@example.org-1700000000000"))
    as (_ & _ & Hc).
  split_and!.
  - apply Ha; try reflexivity; [discriminate | by split].
  - rewrite Hb; [reflexivity | reflexivity |].
    unfold Object_prototype. simpl. intros H.
    repeat (apply elem_of_cons in H as [H|H]; [discriminate H|]).
    by apply elem_of_nil in H.
  - apply Hc; try reflexivity. discriminate.
Defined.

(** The guard [if (!email)] lets through a token that is no key of the
    session object but the name of an inherited member: the lookup is then
    made with the text that the driver binds for that member, and a row
    that holds this text as its email is sent back in full. *)
Lemma inherited_key_reads_row (w : world) (st : state) (k : string) (u : row) :
  sessions st !! k = None → k ∈ Object_prototype → get_err w = None →
  select_by_email (Some (object_text w k)) (db st) = Some u →
  reply (profile w st (Some k)) = ok (Profile (select_star u)).
Proof.
  intros Hk Hin Hg Hu. unfold profile, js_get. cbn [js_key js_string].
  rewrite Hk. rewrite bool_decide_eq_true_2 by done. cbn [truthy negb bind].
  rewrite db_get_calm by done. by rewrite Hu.
Qed.

(** C3.  The profile route at the two inputs where the guard [if (!email)]
    slips.  A user registers with the empty email and logs in: the token
    that login returned is a key of the session object, and the profile
    request that bears it is answered 401 instead of the stored row.  With
    Ada registered and logged in, the token "constructor" is no key of the
    session object, and the profile request that bears it is answered 404
    instead of 401. *)
Lemma profile_guard_slips :
  reply (register quiet boot blank) = ok (Created "Registered successfully" 1)
  ∧ reply (login quiet (serve boot [(quiet, POST_register blank)]) blank)
    = ok (Token "-1700000000000")
  ∧ sessions (serve boot [(quiet, POST_register blank); (quiet, POST_login blank)])
      !! "-1700000000000" = Some (Some "")
  ∧ reply (profile quiet
             (serve boot [(quiet, POST_register blank); (quiet, POST_login blank)])
             (Some "-1700000000000"))
    = Response 401 (Message "Unauthorized")
  ∧ sessions (serve boot [(quiet, POST_register ada); (quiet, POST_login ada)])
      !! "constructor" = None
  ∧ reply (profile quiet
             (serve boot [(quiet, POST_register ada); (quiet, POST_login ada)])
             (Some "constructor"))
    = Response 404 (Message "User not found").
Proof. vm_compute. done. Qed.

(** *** The students routes *)

Lemma select_listed_id_ne (r : row) i o :
  id r ≠ i → o !! 0%nat = Some ("id", VInt i) → select_listed r ≠ o.
Proof. intros Hne Ho <-. simpl in Ho. congruence. Qed.

Lemma filter_listed_fresh (rs : list row) (o : obj) i :
  (∀ r, r ∈ rs → id r < i) → o !! 0%nat = Some ("id", VInt i) →
  filter (λ x, x = o) (select_listed <$> rs) = [].
Proof.
  intros Hfresh Ho. induction rs as [|r rs IH]; [done|]. simpl.
  rewrite filter_cons_False.
  - apply IH. intros r' Hr'. by apply Hfresh, list_elem_of_further.
  - apply select_listed_id_ne with (i := i); [|done].
    specialize (Hfresh r (list_elem_of_here _ _)). lia.
Qed.

(** C4.  When storage answers, the list route returns one object per stored
    row, in table order; each object has exactly the members id, firstName,
    lastName, email and contact, with the values of the row, and no
    password member.  After a registration that answered 200, the object
    for the new row occurs exactly once in the list. *)
Theorem list_projects (w w' : world) (st : state) (b : req.body)
    (m : string) (i : Z) :
  get_err w = None →
  reply (list_students w st) = ok (Rows (select_listed <$> students (db st)))
  ∧ (∀ r, select_listed r = filter (λ kv, kv.1 ∈ listed) (select_star r)
          ∧ (select_listed r).*1 = listed
          ∧ "password" ∉ (select_listed r).*1)
  ∧ (reply (register w' st b) = ok (Created m i) →
     ∃ rows,
       reply (list_students w (next (register w' st b))) = ok (Rows rows)
       ∧ length (filter (λ o, o = [("id", VInt i);
                                   ("firstName", of_field (req.firstName b));
                                   ("lastName", of_field (req.lastName b));
                                   ("email", of_field (req.email b));
                                   ("contact", of_field (req.contact b))]) rows)
         = 1%nat).
Proof.
  intros Hg. split_and!; [| |intros Hreg].
  - unfold list_students, db_all. by rewrite Hg.
  - intros r. split_and!; [done..|]. simpl. unfold listed. intros H.
    repeat (apply elem_of_cons in H as [H|H]; [discriminate H|]).
    by apply elem_of_nil in H.
  - destruct (register_created _ _ _ _ _ Hreg) as (h & -> & Hrows).
    eexists. split.
    + unfold list_students, db_all. rewrite Hg. simpl. by rewrite Hrows.
    + rewrite fmap_app, filter_app. simpl.
      rewrite filter_cons_True by done. rewrite filter_nil.
      rewrite length_app. simpl.
      rewrite (filter_listed_fresh _ _ (next_rowid (db st))); [done| |done].
      apply next_rowid_fresh.
Qed.

(** Bob is created, then Ada registers and the list is read. *)
Lemma list_projects_witness :
  reply (list_students quiet (serve boot [(quiet, POST_students bob)]))
  = ok (Rows
          [[("id", VInt 1); ("firstName", VText "Bob"); ("lastName", VText "Stone");
            ("email", VText "bob@example.org"); ("contact", VText "0918")]])
  ∧ ∃ rows,
      reply (list_students quiet
               (next (register quiet (serve boot [(quiet, POST_students bob)]) ada)))
      = ok (Rows rows)
      ∧ length (filter
                  (λ o, o = [("id", VInt 2); ("firstName", VText "Ada");
                             ("lastName", VText "Lovelace");
                             ("email", VText "ada@example.org");
                             ("contact", VText "0917")]) rows)
        = 1%nat.
Proof.
  destruct (list_projects quiet quiet (serve boot [(quiet, POST_students bob)]) ada
              "Registered successfully" 2 eq_refl) as (H1 & _ & H3).
  split; [exact H1 | exact (H3 eq_refl)].
Defined.

(** C5, as amended.  When storage reports no error and no row with another
    identifier holds the payload's email, the update route answers 200 and
    the table is the old one with the six columns of the matching row
    replaced by the payload; rows with another identifier, and the session
    object, are as before.  When no row matches, whatever the payload, the
    answer is the same success message, zero rows change and the state is
    as before.  The only call on storage is the UPDATE itself. *)
Theorem update_overwrites (w : world) (st : state) (i : Z) (b : req.body) :
  (run_err w = None →
   (∀ r, r ∈ students (db st) → id r ≠ i → sql_eq (email r) (req.email b) = false) →
   reply (update w st i b) = ok (Message "Student updated successfully")
   ∧ length (students (db (next (update w st i b)))) = length (students (db st))
   ∧ (∀ (k : nat) r, students (db st) !! k = Some r →
        students (db (next (update w st i b))) !! k
        = Some (if bool_decide (id r = i)
                then Row i (req.firstName b) (req.lastName b) (req.username b)
                       (req.email b) (req.contact b) (req.password b)
                else r))
   ∧ sessions (next (update w st i b)) = sessions st)
  ∧ (run_err w = None →
     (∀ r, r ∈ students (db st) → id r ≠ i) →
     update w st i b
     = Outcome st (ok (Message "Student updated successfully"))
         [Ran UPDATE (inr 0%nat)])
  ∧ ∃ res, calls (update w st i b) = [Ran UPDATE res].
Proof.
  split_and!.
  - intros Hr Hfree. unfold update, db_update. rewrite Hr.
    rewrite (proj2 (update_conflict_false _ _ _)) by (by right). simpl.
    split_and!; [done | by rewrite length_fmap | | done].
    intros k r Hk. rewrite list_lookup_fmap, Hk. simpl. f_equal.
    unfold set_columns. case_bool_decide; [by subst | done].
  - intros Hr Habsent. unfold update, db_update. rewrite Hr.
    rewrite (proj2 (update_conflict_false _ _ _)) by (by left).
    rewrite set_columns_absent, count_id_absent by done.
    by destruct st as [[] ?].
  - unfold update. destruct (db_update _ _ _ _ _ _ _ _ _) as [err|[n d]];
      simpl; eauto.
Qed.

(** Bob's row takes a new email and password; identifier 7 matches
    nothing. *)
Lemma update_overwrites_witness :
  students (db (next (update quiet
     (serve boot [(quiet, POST_students ada); (quiet, POST_students bob)]) 2
     (req.Body (Some "Rob") (Some "Stone") (Some "rob") (Some "rob@example.org")
        (Some "0918") (Some "swordfish"))))) !! 1%nat
  = Some (Row 2 (Some "Rob") (Some "Stone") (Some "rob") (Some "rob@example.org")
            (Some "0918") (Some "swordfish"))
  ∧ update quiet (serve boot [(quiet, POST_students ada)]) 7 bob
    = Outcome (serve boot [(quiet, POST_students ada)])
        (ok (Message "Student updated successfully")) [Ran UPDATE (inr 0%nat)].
Proof.
  split.
  - destruct (update_overwrites quiet
      (serve boot [(quiet, POST_students ada); (quiet, POST_students bob)]) 2
      (req.Body (Some "Rob") (Some "Stone") (Some "rob") (Some "rob@example.org")
         (Some "0918") (Some "swordfish"))) as (H & _ & _).
    destruct H as (_ & _ & Hk & _); [reflexivity| |].
    + intros r Hr _.
      apply elem_of_cons in Hr as [->|Hr]; [reflexivity|].
      apply elem_of_cons in Hr as [->|Hr]; [reflexivity|].
      by apply elem_of_nil in Hr.
    + apply (Hk 1%nat (Row 2 (Some "Bob") (Some "Stone") (Some "bob")
                         (Some "bob@example.org") (Some "0918") (Some "hunter2"))).
      reflexivity.
  - destruct (update_overwrites quiet (serve boot [(quiet, POST_students ada)]) 7 bob)
      as (_ & H & _).
    apply H; [reflexivity|].
    intros r Hr. apply elem_of_cons in Hr as [->|Hr]; [discriminate|].
    by apply elem_of_nil in Hr.
Defined.

(** C5 as the claim words it fails for a payload whose email another row
    holds: the UNIQUE index refuses the statement, the answer is 500 and
    Bob's row keeps its columns. *)
Lemma update_refuses_taken_email :
  students (db (serve boot [(quiet, POST_students ada); (quiet, POST_students bob)]))
    !! 1%nat
  = Some (Row 2 (Some "Bob") (Some "Stone") (Some "bob") (Some "bob@example.org")
            (Some "0918") (Some "hunter2"))
  ∧ update quiet
      (serve boot [(quiet, POST_students ada); (quiet, POST_students bob)]) 2
      (req.Body (Some "Bob") (Some "Stone") (Some "bob") (Some "ada@example.org")
         (Some "0918") (Some "hunter2"))
    = Outcome
        (serve boot [(quiet, POST_students ada); (quiet, POST_students bob)])
        (Response 500 (Failure "Update error" SQLITE_CONSTRAINT))
        [Ran UPDATE (inl SQLITE_CONSTRAINT)].
Proof. vm_compute. done. Qed.

(** C6.  When storage reports no error, the delete route answers 200 and
    the table is the old one without the rows of that identifier, the other
    rows as they were and in their order; a list read afterwards has no
    object with that id.  A second delete of the same identifier answers
    200 as well, changes zero rows and leaves the state as the first delete
    left it. *)
Theorem delete_removes (w w' wl : world) (st : state) (i : Z) :
  run_err w = None → run_err w' = None → get_err wl = None →
  reply (delete_student w st i) = ok (Message "Deleted successfully")
  ∧ students (db (next (delete_student w st i)))
    = filter (λ r, id r ≠ i) (students (db st))
  ∧ (∀ r, r ∈ students (db (next (delete_student w st i)))
          ↔ r ∈ students (db st) ∧ id r ≠ i)
  ∧ sessions (next (delete_student w st i)) = sessions st
  ∧ (∃ rows,
       reply (list_students wl (next (delete_student w st i))) = ok (Rows rows)
       ∧ ∀ o, o ∈ rows → o !! 0%nat ≠ Some ("id", VInt i))
  ∧ delete_student w' (next (delete_student w st i)) i
    = Outcome (next (delete_student w st i))
        (ok (Message "Deleted successfully")) [Ran DELETE (inr 0%nat)].
Proof.
  intros Hr Hr' Hg. unfold delete_student, db_delete. rewrite Hr, Hr'. simpl.
  split_and!; try done.
  - intros r. rewrite list_elem_of_filter. tauto.
  - unfold list_students, db_all. rewrite Hg. simpl. eexists. split; [done|].
    intros o (r & -> & [Hne _]%list_elem_of_filter)%list_elem_of_fmap.
    simpl. congruence.
  - rewrite count_id_absent by (by intros r [? _]%list_elem_of_filter).
    do 2 f_equal. f_equal. rewrite list_filter_filter. apply list_filter_iff.
    tauto.
Qed.

(** Ada's row is deleted twice while Bob's stays. *)
Lemma delete_removes_witness :
  students (db (next (delete_student quiet
     (serve boot [(quiet, POST_students ada); (quiet, POST_students bob)]) 1)))
  = [Row 2 (Some "Bob") (Some "Stone") (Some "bob") (Some "bob@example.org")
       (Some "0918") (Some "hunter2")]
  ∧ calls (delete_student quiet
      (next (delete_student quiet
         (serve boot [(quiet, POST_students ada); (quiet, POST_students bob)]) 1)) 1)
    = [Ran DELETE (inr 0%nat)].
Proof.
  destruct (delete_removes quiet quiet quiet
    (serve boot [(quiet, POST_students ada); (quiet, POST_students bob)]) 1
    eq_refl eq_refl eq_refl) as (_ & H2 & _ & _ & _ & H6).
  split; [exact H2 | by rewrite H6].
Defined.

(** C8.  When storage reports no error and no stored row holds the
    request's email, students-create answers 200 with the identifier of the
    row it appends, an identifier no row had, and that row's password
    column is the request's password as sent.  Register, on the same input
    with a string password, appends the same row except that the password
    column holds what [bcrypt.hash] returned for the password at cost
    [SALT_ROUNDS]. *)
Theorem create_stores_plaintext (w : world) (st : state) (b : req.body) (p : string) :
  calm w → select_by_email (req.email b) (db st) = None →
  reply (create w st b) = ok (Created "Student inserted" (next_rowid (db st)))
  ∧ students (db (next (create w st b)))
    = students (db st) ++
        [Row (next_rowid (db st)) (req.firstName b) (req.lastName b)
           (req.username b) (req.email b) (req.contact b) (req.password b)]
  ∧ (∀ r, r ∈ students (db st) → id r ≠ next_rowid (db st))
  ∧ (req.password b = Some p →
     reply (register w st b)
     = ok (Created "Registered successfully" (next_rowid (db st)))
     ∧ students (db (next (register w st b)))
       = students (db st) ++
           [Row (next_rowid (db st)) (req.firstName b) (req.lastName b)
              (req.username b) (req.email b) (req.contact b)
              (Some (bcrypt_digest w p SALT_ROUNDS))]).
Proof.
  intros Hcalm Hfresh. rewrite create_fresh by done. simpl. split_and!; try done.
  - intros r Hr%next_rowid_fresh. lia.
  - intros Hp. by rewrite (register_fresh w st b p).
Qed.

(** Bob is created and registered next to Ada. *)
Lemma create_stores_plaintext_witness :
  students (db (next (create quiet (serve boot [(quiet, POST_register ada)]) bob)))
    !! 1%nat
  = Some (Row 2 (Some "Bob") (Some "Stone") (Some "bob") (Some "bob@example.org")
            (Some "0918") (Some "hunter2"))
  ∧ students (db (next (register quiet (serve boot [(quiet, POST_register ada)]) bob)))
      !! 1%nat
    = Some (Row 2 (Some "Bob") (Some "Stone") (Some "bob") (Some "bob@example.org")
              (Some "0918") (Some "$2b$10$hunter2")).
Proof.
  destruct (create_stores_plaintext quiet (serve boot [(quiet, POST_register ada)])
              bob "hunter2" (conj eq_refl eq_refl) eq_refl) as (_ & H2 & _ & H4).
  destruct (H4 eq_refl) as [_ H5].
  split; [by rewrite H2 | by rewrite H5].
Defined.




End ServerFacts.

(** ** Properties of the client's hooks *)

Module ClientFacts.
Import Client.

(** *** The submit handler *)

Lemma fetchStudents_settles net h :
  (fetchStudents net h).1 = inl ()
  ∧ form (fetchStudents net h).2 = form h
  ∧ editId (fetchStudents net h).2 = editId h
  ∧ sent (fetchStudents net h).2 = sent h ++ [api_get_students].
Proof.
  unfold fetchStudents, try_catch, mbind, async_bind, await_api.
  by destruct (net _ _).
Qed.

Lemma addStudent_settles net f h :
  ∃ rest,
    (addStudent net f h).1 = inl ()
    ∧ form (addStudent net f h).2 = form h
    ∧ editId (addStudent net f h).2 = editId h
    ∧ sent (addStudent net f h).2 = sent h ++ api_post_register f :: rest
    ∧ Forall (λ c, c = api_get_students) rest.
Proof.
  unfold addStudent, try_catch, mbind, async_bind, await_api.
  destruct (net _ _) as [status data|reason]; simpl.
  - destruct (_ || _).
    + match goal with |- context [fetchStudents net ?h'] =>
        destruct (fetchStudents_settles net h') as (H1 & H2 & H3 & H4);
        destruct (fetchStudents net h') as [[[]|e] h'']; simpl in *; [|done]
      end.
      exists [api_get_students]. rewrite H4, <- app_assoc.
      split_and!; try done. by repeat constructor.
    + exists []. by split_and!.
  - exists []. by split_and!.
Qed.

Lemma updateStudent_settles net i f h :
  ∃ rest,
    (updateStudent net i f h).1 = inl ()
    ∧ form (updateStudent net i f h).2 = form h
    ∧ editId (updateStudent net i f h).2 = editId h
    ∧ sent (updateStudent net i f h).2 = sent h ++ api_put_student i f :: rest
    ∧ Forall (λ c, c = api_get_students) rest.
Proof.
  unfold updateStudent, try_catch, mbind, async_bind, await_api.
  destruct (net _ _) as [status data|reason]; simpl.
  - destruct (bool_decide _).
    + match goal with |- context [fetchStudents net ?h'] =>
        destruct (fetchStudents_settles net h') as (H1 & H2 & H3 & H4);
        destruct (fetchStudents net h') as [[[]|e] h'']; simpl in *; [|done]
      end.
      exists [api_get_students]. rewrite H4, <- app_assoc.
      split_and!; try done. by repeat constructor.
    + exists []. by split_and!.
  - exists []. by split_and!.
Qed.

(** C9.  Whatever the network does, a submit sends the update request for
    the editing identifier and the form when the identifier is not null,
    and the register request for the form when it is null; it sends nothing
    else but reads of the list; it ends without throwing, with every form
    field the empty string and the editing identifier null. *)
Theorem handleSubmit_resets (net : network) (h : hooks) :
  ∃ rest,
    (handleSubmit net h).1 = inl ()
    ∧ form (handleSubmit net h).2 = mkStudent "" "" "" "" "" ""
    ∧ editId (handleSubmit net h).2 = None
    ∧ sent (handleSubmit net h).2
      = sent h ++
          match editId h with
          | Some i => api_put_student i (form h)
          | None => api_post_register (form h)
          end :: rest
    ∧ Forall (λ c, c = api_get_students) rest.
Proof.
  unfold handleSubmit, read, resetForm, setForm, setEditId, mbind, async_bind.
  destruct (editId h) as [i|].
  - destruct (updateStudent_settles net i (form h) h) as (rest & H1 & _ & _ & H4 & H5).
    exists rest. destruct (updateStudent net i (form h) h) as [[[]|e] h']; by simpl in *.
  - destruct (addStudent_settles net (form h) h) as (rest & H1 & _ & _ & H4 & H5).
    exists rest. destruct (addStudent net (form h) h) as [[[]|e] h']; by simpl in *.
Qed.

(** A submit while editing row 3, on a network that rejects everything. *)
Example handleSubmit_offline :
  handleSubmit (λ _ _, Rejected "Network Error")
    (Hooks (mkStudent "Ada" "Lovelace" "ada" "ada@example.org" "0917" "pw")
       (Some 3) [] None [])
  = (inl (),
     Hooks (mkStudent "" "" "" "" "" "") None [] (Some "Failed to update student")
       [api_put_student 3
          (mkStudent "Ada" "Lovelace" "ada" "ada@example.org" "0917" "pw")]).
Proof. reflexivity. Qed.

End ClientFacts.

(** ** Further properties of the API service *)

Module ServerExtras.
Import Server Lifecycle ServerFacts.

Ltac unfold_handlers :=
  unfold register, login, profile, status_check, create, list_students,
    update, delete_student, db_get, db_insert, db_update, db_delete, db_all.

(** X1.  Starting from a consistent table, after any sequence of requests
    no two stored rows share an identifier, and neither do two objects of a
    list response. *)
Theorem identifiers_distinct (st0 : state) (rs : list (world * request)) (w : world) :
  consistent (db st0) →
  NoDup (id <$> students (db (serve st0 rs)))
  ∧ ∀ rows, reply (list_students w (serve st0 rs)) = ok (Rows rows) →
            NoDup ((λ o : obj, o !! 0%nat) <$> rows).
Proof.
  intros Hc. pose proof (ids_distinct _ (serve_consistent st0 rs Hc)) as Hnd.
  split; [done|]. intros rows. unfold list_students, db_all.
  destruct (get_err w); [done|]. intros [= <-].
  rewrite <- list_fmap_compose.
  assert ((λ o : obj, o !! 0%nat) ∘ select_listed
          = (λ z, Some ("id", VInt z)) ∘ id) as -> by done.
  rewrite list_fmap_compose. apply NoDup_fmap_2; [|done].
  by intros x y [=].
Qed.

Lemma identifiers_distinct_witness :
  NoDup (id <$> students (db (serve boot
    [(quiet, POST_register ada); (quiet, DELETE_students 1);
     (quiet, POST_students ada); (quiet, POST_students bob)]))).
Proof.
  exact (proj1 (identifiers_distinct boot
    [(quiet, POST_register ada); (quiet, DELETE_students 1);
     (quiet, POST_students ada); (quiet, POST_students bob)] quiet boot_consistent)).
Defined.

Lemma next_rowid_above d : sqlite_sequence d < next_rowid d.
Proof. unfold next_rowid. lia. Qed.

Lemma handle_sequence_grows w st r :
  sqlite_sequence (db st) ≤ sqlite_sequence (db (next (handle w st r))).
Proof.
  pose proof (next_rowid_above (db st)).
  destruct r; simpl; unfold_handlers; repeat case_match; simplify_eq; simpl; lia.
Qed.

Lemma serve_sequence_grows st rs :
  sqlite_sequence (db st) ≤ sqlite_sequence (db (serve st rs)).
Proof.
  induction rs as [|[w r] rs IH] using rev_ind; [done|].
  rewrite serve_snoc. etrans; [exact IH | apply handle_sequence_grows].
Qed.

Lemma ids_bounded_insert d fn ln un em ct pw :
  ids_bounded d →
  ids_bounded (Database (students d ++ [Row (next_rowid d) fn ln un em ct pw])
                 (next_rowid d)).
Proof.
  intros Hb r. simpl. pose proof (next_rowid_above d).
  intros [Hr | ->%list_elem_of_singleton]%elem_of_app; [|done].
  apply Hb in Hr. lia.
Qed.

Lemma handle_bounded w st r :
  ids_bounded (db st) → ids_bounded (db (next (handle w st r))).
Proof.
  intros Hb.
  destruct r; simpl; unfold_handlers; repeat case_match; simplify_eq; simpl;
    try done; try by apply ids_bounded_insert.
  - intros r (r' & -> & Hr')%list_elem_of_fmap. simpl.
    rewrite set_columns_id. by apply Hb.
  - intros r [_ Hr]%list_elem_of_filter. by apply Hb.
Qed.

Lemma serve_bounded st rs : ids_bounded (db st) → ids_bounded (db (serve st rs)).
Proof.
  intros Hb. induction rs as [|[w r] rs IH] using rev_ind; [done|].
  rewrite serve_snoc. by apply handle_bounded.
Qed.

Lemma handle_created w st r m i :
  reply (handle w st r) = ok (Created m i) → i = next_rowid (db st).
Proof.
  destruct r; simpl; unfold_handlers; repeat case_match; simplify_eq; simpl;
    try done; by intros [= _ <-].
Qed.

(** X2.  Identifiers are never handed out twice.  When no stored identifier
    exceeds the AUTOINCREMENT counter, a row stored now has a smaller
    identifier than the one announced by any later 200 of register or
    students-create, whatever requests come in between, deletes of that row
    included. *)
Theorem identifiers_not_reused (st : state) (rs : list (world * request))
    (w : world) (q : request) (r : row) (m : string) (i : Z) :
  ids_bounded (db st) → r ∈ students (db st) →
  reply (handle w (serve st rs) q) = ok (Created m i) →
  id r < i.
Proof.
  intros Hb Hr ->%handle_created.
  pose proof (Hb r Hr). pose proof (serve_sequence_grows st rs).
  pose proof (next_rowid_above (db (serve st rs))). lia.
Qed.

(** Ada's row is deleted and her email registered again: the new row is
    number 2, not 1. *)
Lemma identifiers_not_reused_witness :
  reply (handle quiet (serve (serve boot [(quiet, POST_register ada)])
                         [(quiet, DELETE_students 1)]) (POST_register ada))
  = ok (Created "Registered successfully" 2)
  ∧ 1 < 2.
Proof.
  split; [reflexivity|].
  apply (identifiers_not_reused (serve boot [(quiet, POST_register ada)])
           [(quiet, DELETE_students 1)] quiet (POST_register ada)
           (Row 1 (Some "Ada") (Some "Lovelace") (Some "ada")
              (Some "ada@example.org") (Some "0917") (Some "$2b$10$enchantress"))
           "Registered successfully" 2).
  - apply serve_bounded. by intros r ?%elem_of_nil.
  - apply list_elem_of_here.
  - reflexivity.
Defined.

Lemma login_sessions_kept w st b k v :
  minted (sessions st) → sessions st !! k = Some v →
  sessions (next (login w st b)) !! k = Some v.
Proof.
  intros Hm Hk. unfold login.
  destruct (db_get w (db st) (req.email b)) as [err|[user|]] eqn:Hget; [done| |done].
  destruct (db_get_found _ _ _ _ Hget) as [e He].
  destruct (bcrypt_compare _ _ _) as [err|[|]]; [done| |done].
  rewrite He. simpl. rewrite lookup_insert. case_decide as Heq; [|done]. subst k.
  destruct (Hm _ _ Hk) as (e' & n & -> & Ht).
  apply token_inj in Ht as [-> _]; [done | apply pretty_no_dash..].
Qed.

Lemma handle_sessions_kept w st r k v :
  minted (sessions st) → sessions st !! k = Some v →
  sessions (next (handle w st r)) !! k = Some v.
Proof.
  intros Hm Hk.
  destruct r as [b|b|a| |b| |i b|i]; simpl; [|by apply login_sessions_kept|..];
    unfold_handlers; repeat case_match; simplify_eq; by simpl.
Qed.

(** X3.  Sessions never expire and are never revoked: an entry of the
    session object written by login is still there, with the same email,
    after any sequence of requests. *)
Theorem sessions_never_expire (st : state) (rs : list (world * request))
    (k : string) (v : field) :
  minted (sessions st) → sessions st !! k = Some v →
  sessions (serve st rs) !! k = Some v.
Proof.
  intros Hm Hk. induction rs as [|[w r] rs IH] using rev_ind; [done|].
  rewrite serve_snoc. apply handle_sessions_kept; [by apply serve_minted | done].
Qed.

(** Ada's token outlives her row and a later login of hers. *)
Lemma sessions_never_expire_witness :
  sessions (serve (serve boot [(quiet, POST_register ada); (quiet, POST_login ada)])
              [(quiet, DELETE_students 1); (quiet, POST_students ada);
               (quiet, POST_login ada)])
    !! "ada@example.org-1700000000000" = Some (Some "ada@example.org").
Proof.
  apply (sessions_never_expire
           (serve boot [(quiet, POST_register ada); (quiet, POST_login ada)])).
  - apply serve_minted, boot_minted.
  - reflexivity.
Defined.

(** X4.  Login, profile, status and list never touch the table and issue no
    write; every route but login leaves the session object as it was. *)
Theorem reads_leave_no_trace (w : world) (st : state) (r : request) :
  (reads_only r = true →
   db (next (handle w st r)) = db st
   ∧ existsb wrote (calls (handle w st r)) = false)
  ∧ (is_login r = false → sessions (next (handle w st r)) = sessions st).
Proof.
  destruct r; simpl; unfold_handlers; repeat case_match; simplify_eq; by simpl.
Qed.

(** A successful login leaves the table alone; a delete leaves the sessions
    alone. *)
Lemma reads_leave_no_trace_witness :
  db (next (handle quiet (serve boot [(quiet, POST_register ada)]) (POST_login ada)))
  = db (serve boot [(quiet, POST_register ada)])
  ∧ sessions (next (handle quiet
                 (serve boot [(quiet, POST_register ada); (quiet, POST_login ada)])
                 (DELETE_students 1)))
    = sessions (serve boot [(quiet, POST_register ada); (quiet, POST_login ada)]).
Proof.
  split.
  - exact (proj1 (proj1 (reads_leave_no_trace quiet
             (serve boot [(quiet, POST_register ada)]) (POST_login ada)) eq_refl)).
  - exact (proj2 (reads_leave_no_trace quiet
             (serve boot [(quiet, POST_register ada); (quiet, POST_login ada)])
             (DELETE_students 1)) eq_refl).
Defined.

(** X5.  A route handler that runs to its answer with no callback of
    another request in between answers with one of the statuses 200, 400,
    401, 404 and 500 (answers that the middleware in front of the handlers
    gives are not meant).  When, besides, storage reports no error, such a
    handler answers 500 in two cases only: a register request without a
    string password, and an update whose email is held by a row with
    another identifier; what happens when two registrations overlap is
    X25. *)
Theorem server_errors (w : world) (st : state) (r : request) :
  status (reply (handle w st r)) ∈ [200; 400; 401; 404; 500]%nat
  ∧ (calm w → status (reply (handle w st r)) = 500%nat →
     (∃ b, r = POST_register b ∧ req.password b = None)
     ∨ (∃ i b u, r = PUT_students i b ∧ u ∈ students (db st) ∧ id u ≠ i
                 ∧ sql_eq (email u) (req.email b) = true)).
Proof.
  split.
  - destruct r; simpl; unfold_handlers; repeat case_match; simpl;
      repeat (first [apply list_elem_of_here | apply list_elem_of_further]).
  - intros [Hg Hr].
    destruct r as [b|b|a| |b| |i b|i]; simpl; unfold_handlers; rewrite ?Hg, ?Hr.
    + destruct (select_by_email _ _) eqn:Hsel; [done|].
      rewrite (select_none_free _ _ Hsel). unfold bcrypt_hash.
      destruct (req.password b) eqn:Hp; simpl; [done|]. intros _. left. by exists b.
    + repeat case_match; by simpl.
    + repeat case_match; by simpl.
    + done.
    + destruct (select_by_email _ _) eqn:Hsel; [done|].
      by rewrite (select_none_free _ _ Hsel).
    + done.
    + destruct (update_conflict _ _ _) eqn:Hc; [|done]. intros _. right.
      unfold update_conflict in Hc. apply andb_true_iff in Hc as [_ Hc].
      apply existsb_exists in Hc as (u & Hu%list_elem_of_In & Hx).
      apply andb_true_iff in Hx as [Hi%bool_decide_eq_true He].
      by exists i, b, u.
    + done.
Qed.

(** Bob's update asks for Ada's email. *)
Lemma server_errors_witness :
  ∃ i b u,
    PUT_students 2 (req.Body None None None (Some "ada@example.org") None None)
    = PUT_students i b
    ∧ u ∈ students (db (serve boot [(quiet, POST_students ada);
                                    (quiet, POST_students bob)]))
    ∧ id u ≠ i ∧ sql_eq (email u) (req.email b) = true.
Proof.
  destruct (proj2 (server_errors quiet
    (serve boot [(quiet, POST_students ada); (quiet, POST_students bob)])
    (PUT_students 2 (req.Body None None None (Some "ada@example.org") None None)))
    (conj eq_refl eq_refl) eq_refl) as [(b & Hb & _)|H]; [discriminate Hb | exact H].
Defined.

(** X6.  An answer other than 200 means that nothing happened: the table
    and the session object are as before. *)
Theorem failures_change_nothing (w : world) (st : state) (r : request) :
  status (reply (handle w st r)) ≠ 200%nat → next (handle w st r) = st.
Proof.
  destruct r; simpl; unfold_handlers; repeat case_match; simplify_eq; by simpl.
Qed.

Lemma failures_change_nothing_witness :
  next (handle quiet (serve boot [(quiet, POST_students ada); (quiet, POST_students bob)])
          (PUT_students 2 ada))
  = serve boot [(quiet, POST_students ada); (quiet, POST_students bob)].
Proof.
  apply (failures_change_nothing quiet
    (serve boot [(quiet, POST_students ada); (quiet, POST_students bob)])
    (PUT_students 2 ada)).
  vm_compute. discriminate.
Defined.

(** X7.  The table grows by exactly one row when the answer announces a new
    identifier, and never otherwise; only a delete can shorten it. *)
Theorem table_length (w : world) (st : state) (r : request) :
  (announces_row (reply (handle w st r)) = true →
   length (students (db (next (handle w st r)))) = S (length (students (db st))))
  ∧ (announces_row (reply (handle w st r)) = false →
     (length (students (db (next (handle w st r)))) ≤ length (students (db st)))%nat
     ∧ (is_delete r = false →
        length (students (db (next (handle w st r)))) = length (students (db st)))).
Proof.
  destruct r; simpl; unfold_handlers; unfold announces_row;
    repeat case_match; simplify_eq; simpl;
    rewrite ?length_app, ?length_fmap; simpl;
    (split; [intros ?|intros ?; split; [|intros ?]]); try done; try lia.
  apply length_filter.
Qed.

Lemma table_length_witness :
  length (students (db (next (handle quiet (serve boot [(quiet, POST_students ada)])
                                (POST_register bob))))) = 2%nat
  ∧ length (students (db (next (handle quiet (serve boot [(quiet, POST_students ada)])
                                  (POST_register ada))))) = 1%nat.
Proof.
  split.
  - exact (proj1 (table_length quiet (serve boot [(quiet, POST_students ada)])
                    (POST_register bob)) eq_refl).
  - exact (proj2 (proj2 (table_length quiet (serve boot [(quiet, POST_students ada)])
                           (POST_register ada)) eq_refl) eq_refl).
Defined.

Lemma set_columns_twice i fn ln un em ct pw r :
  set_columns i fn ln un em ct pw (set_columns i fn ln un em ct pw r)
  = set_columns i fn ln un em ct pw r.
Proof. unfold set_columns. repeat case_bool_decide; simpl in *; done. Qed.

Lemma count_id_set_columns i fn ln un em ct pw (rs : list row) :
  count_id i (set_columns i fn ln un em ct pw <$> rs) = count_id i rs.
Proof.
  unfold count_id. induction rs as [|r rs IH]; [done|].
  rewrite fmap_cons, !filter_cons, set_columns_id.
  case_decide; cbn [length]; by rewrite IH.
Qed.

Lemma update_conflict_after i fn ln un em ct pw (rs : list row) :
  update_conflict i em rs = false →
  update_conflict i em (set_columns i fn ln un em ct pw <$> rs) = false.
Proof.
  intros [Ha|Ha]%update_conflict_false; apply update_conflict_false; [left|right].
  - intros r (r' & -> & Hr')%list_elem_of_fmap. rewrite set_columns_id. by apply Ha.
  - intros r (r' & -> & Hr')%list_elem_of_fmap. rewrite set_columns_id. intros Hi.
    unfold set_columns. rewrite bool_decide_eq_false_2 by done. by apply Ha.
Qed.

(** X8.  Update is idempotent: when an update is answered 200 and storage
    reports no error to a second one, the same update sent again is
    answered 200, reports the same number of changed rows and leaves the
    state as the first one left it. *)
Theorem update_idempotent (w w' : world) (st : state) (i : Z) (b : req.body) :
  status (reply (update w st i b)) = 200%nat → run_err w' = None →
  update w' (next (update w st i b)) i b
  = Outcome (next (update w st i b))
      (ok (Message "Student updated successfully"))
      [Ran UPDATE (inr (count_id i (students (db st))))].
Proof.
  unfold update, db_update. intros H200 Hr'. rewrite Hr'.
  destruct (run_err w); [done|].
  destruct (update_conflict i (req.email b) (students (db st))) eqn:Hc; [done|].
  simpl. rewrite update_conflict_after by done.
  rewrite count_id_set_columns. do 3 f_equal.
  rewrite <- list_fmap_compose. apply list_fmap_ext.
  intros _ r _. apply set_columns_twice.
Qed.

Lemma update_idempotent_witness :
  next (update quiet (next (update quiet (serve boot [(quiet, POST_students ada)]) 1 bob))
          1 bob)
  = next (update quiet (serve boot [(quiet, POST_students ada)]) 1 bob).
Proof.
  rewrite (update_idempotent quiet quiet (serve boot [(quiet, POST_students ada)]) 1 bob);
    reflexivity.
Defined.

Lemma select_after_delete (d : database) r i e :
  consistent d → r ∈ students d → id r = i → email r = Some e →
  find (λ r, sql_eq (email r) (Some e)) (filter (λ r, id r ≠ i) (students d)) = None.
Proof.
  intros [_ Hem] Hr Hi He. apply find_none_forall.
  intros r' [Hne Hr']%list_elem_of_filter.
  apply list_elem_of_lookup_1 in Hr as [j Hj].
  apply list_elem_of_lookup_1 in Hr' as [k Hk].
  destruct (decide (k = j)) as [->|Hjk]; [congruence|].
  rewrite <- He. by apply (Hem k j).
Qed.

(** X9.  Deleting a row frees its email: in a consistent table a
    students-create with a stored email is answered 400, and once the row
    that holds the email is deleted the same request is answered 200 with a
    new identifier. *)
Theorem delete_frees_email (w w' : world) (st : state) (i : Z) (r : row)
    (b : req.body) (e : string) :
  consistent (db st) → r ∈ students (db st) → id r = i → email r = Some e →
  req.email b = Some e → run_err w = None → calm w' →
  reply (create w' st b) = Response 400 (Message "Student already exists")
  ∧ reply (create w' (next (delete_student w st i)) b)
    = ok (Created "Student inserted" (next_rowid (db (next (delete_student w st i))))).
Proof.
  intros Hc Hr Hi He Hb Hrun Hcalm. split.
  - destruct (select_present e (db st) r Hr He) as [u Hu].
    unfold create. rewrite db_get_calm by apply Hcalm. by rewrite Hb, Hu.
  - rewrite create_fresh; [done| |done].
    unfold delete_student, db_delete. rewrite Hrun. simpl. rewrite Hb.
    unfold select_by_email. simpl. by apply (select_after_delete _ r).
Qed.

Lemma delete_frees_email_witness :
  reply (create quiet (serve boot [(quiet, POST_register ada)]) ada)
  = Response 400 (Message "Student already exists")
  ∧ reply (create quiet
             (next (delete_student quiet (serve boot [(quiet, POST_register ada)]) 1))
             ada)
    = ok (Created "Student inserted" 2).
Proof.
  apply (delete_frees_email quiet quiet (serve boot [(quiet, POST_register ada)]) 1
           (Row 1 (Some "Ada") (Some "Lovelace") (Some "ada")
              (Some "ada@example.org") (Some "0917") (Some "$2b$10$enchantress"))
           ada "ada@example.org"); try reflexivity.
  - apply serve_consistent, boot_consistent.
  - apply list_elem_of_here.
  - by split.
Defined.

(** X10.  A login without a string password, or against a row whose
    password column is NULL, is never answered 200, whatever bcrypt would
    say, and changes nothing. *)
Theorem login_needs_password (w : world) (st : state) (b : req.body) :
  req.password b = None
  ∨ (∀ u, select_by_email (req.email b) (db st) = Some u → password u = None) →
  status (reply (login w st b)) ≠ 200%nat ∧ next (login w st b) = st.
Proof.
  intros Hp. unfold login, db_get, bcrypt_compare.
  destruct (get_err w); [done|].
  destruct (select_by_email _ _) as [u|] eqn:Hu; [|done].
  destruct Hp as [->|Hp]; [done|]. rewrite (Hp u eq_refl).
  by destruct (req.password b).
Qed.

(** A student created without a password cannot log in. *)
Lemma login_needs_password_witness :
  status (reply (login quiet
    (serve boot [(quiet, POST_students
                    (req.Body None None None (Some "cy@example.org") None None))])
    (req.Body None None None (Some "cy@example.org") None (Some "")))) ≠ 200%nat
  ∧ next (login quiet
      (serve boot [(quiet, POST_students
                      (req.Body None None None (Some "cy@example.org") None None))])
      (req.Body None None None (Some "cy@example.org") None (Some "")))
    = serve boot [(quiet, POST_students
                     (req.Body None None None (Some "cy@example.org") None None))].
Proof.
  apply login_needs_password. right. intros u [= <-]. reflexivity.
Defined.

(** X11.  A register request without a string password stores nothing: it
    is answered 400 or 500, issues no write and leaves the state as it
    was. *)
Theorem register_needs_password (w : world) (st : state) (b : req.body) :
  req.password b = None →
  status (reply (register w st b)) ∈ [400; 500]%nat
  ∧ existsb wrote (calls (register w st b)) = false
  ∧ next (register w st b) = st.
Proof.
  intros Hp. unfold register, db_get, bcrypt_hash. rewrite Hp.
  destruct (get_err w); simpl.
  - split_and!; [|done..]. apply list_elem_of_further, list_elem_of_here.
  - destruct (select_by_email _ _); simpl; split_and!; try done.
    + apply list_elem_of_here.
    + apply list_elem_of_further, list_elem_of_here.
Qed.

Lemma register_needs_password_witness :
  status (reply (register quiet boot
    (req.Body (Some "Cy") None None (Some "cy@example.org") None None)))
    ∈ [400; 500]%nat
  ∧ existsb wrote (calls (register quiet boot
      (req.Body (Some "Cy") None None (Some "cy@example.org") None None))) = false
  ∧ next (register quiet boot
      (req.Body (Some "Cy") None None (Some "cy@example.org") None None)) = boot.
Proof. apply register_needs_password. reflexivity. Defined.

(** X12.  A profile answered 200 for a token of the session object is the
    full object of a stored row whose email is the email of the session
    entry, password column included. *)
Theorem profile_is_stored_row (w : world) (st : state)
    (authorization : option string) (e : string) (o : obj) :
  sessions st !! js_key authorization = Some (Some e) →
  reply (profile w st authorization) = ok (Profile o) →
  ∃ u, u ∈ students (db st) ∧ email u = Some e ∧ o = select_star u
       ∧ o !! 6%nat = Some ("password", of_field (password u)).
Proof.
  intros Hs. unfold profile, db_get. rewrite (js_get_own _ _ _ Hs).
  cbn [js_field bind]. destruct (negb _); [done|].
  destruct (get_err w); [done|].
  destruct (select_by_email _ _) as [u|] eqn:Hu; [|done].
  intros [= <-]. apply find_some_elem in Hu as [Hin [s [Hs1 [= <-]]]%sql_eq_true].
  by exists u.
Qed.

Lemma profile_is_stored_row_witness :
  ∃ u, u ∈ students (db (serve boot [(quiet, POST_register ada); (quiet, POST_login ada)]))
       ∧ email u = Some "ada@example.org"
       ∧ [("id", VInt 1); ("firstName", VText "Ada"); ("lastName", VText "Lovelace");
          ("username", VText "ada"); ("email", VText "ada@example.org");
          ("contact", VText "0917"); ("password", VText "$2b$10$enchantress")]
         = select_star u.
Proof.
  destruct (profile_is_stored_row quiet
    (serve boot [(quiet, POST_register ada); (quiet, POST_login ada)])
    (Some "ada@example.org-1700000000000") "ada@example.org"
    [("id", VInt 1); ("firstName", VText "Ada"); ("lastName", VText "Lovelace");
     ("username", VText "ada"); ("email", VText "ada@example.org");
     ("contact", VText "0917"); ("password", VText "$2b$10$enchantress")]
    eq_refl eq_refl) as (u & H1 & H2 & H3 & _).
  by exists u.
Defined.

(** X13.  Create and delete undo each other on the table: when storage
    reports no error and the email is free, deleting the identifier that
    students-create announced gives back the rows that were there before,
    in their order; only the AUTOINCREMENT counter remembers the row. *)
Theorem create_then_delete (w w' : world) (st : state) (b : req.body) :
  calm w → run_err w' = None →
  select_by_email (req.email b) (db st) = None →
  reply (create w st b) = ok (Created "Student inserted" (next_rowid (db st)))
  ∧ students (db (next (delete_student w' (next (create w st b)) (next_rowid (db st)))))
    = students (db st)
  ∧ sqlite_sequence
      (db (next (delete_student w' (next (create w st b)) (next_rowid (db st)))))
    = next_rowid (db st).
Proof.
  intros Hcalm Hr' Hfresh. rewrite create_fresh by done.
  unfold delete_student, db_delete. rewrite Hr'. simpl. split_and!; try done.
  rewrite filter_app, filter_cons_False, filter_nil, app_nil_r by (simpl; tauto).
  pose proof (next_rowid_fresh (db st)) as Hf.
  induction (students (db st)) as [|r rs IH] in Hf |- *; [done|].
  rewrite filter_cons_True.
  - f_equal. apply IH. intros r' Hr. by apply Hf, list_elem_of_further.
  - specialize (Hf r (list_elem_of_here _ _)). lia.
Qed.

Lemma create_then_delete_witness :
  students (db (next (delete_student quiet
     (next (create quiet (serve boot [(quiet, POST_register ada)]) bob)) 2)))
  = students (db (serve boot [(quiet, POST_register ada)])).
Proof.
  exact (proj1 (proj2 (create_then_delete quiet quiet
    (serve boot [(quiet, POST_register ada)]) bob (conj eq_refl eq_refl)
    eq_refl eq_refl))).
Defined.

Lemma login_token w st b t :
  reply (login w st b) = ok (Token t) →
  ∃ e, req.email b = Some e ∧ t = e +:+ "-" +:+ pretty (Date_now w).
Proof.
  unfold login.
  destruct (db_get w (db st) (req.email b)) as [err|[user|]] eqn:Hget; [done| |done].
  destruct (db_get_found _ _ _ _ Hget) as [e He].
  destruct (bcrypt_compare _ _ _) as [err|[|]]; [done| |done].
  rewrite He. simpl. intros [= <-]. by exists e.
Qed.

(** X14.  Two logins are answered with the same token only if they are for
    the same email at the same clock value: tokens of different users never
    collide, and neither do tokens of one user at different times. *)
Theorem tokens_collide_only_at_same_instant (w1 w2 : world) (st1 st2 : state)
    (b1 b2 : req.body) (t : string) :
  reply (login w1 st1 b1) = ok (Token t) →
  reply (login w2 st2 b2) = ok (Token t) →
  req.email b1 = req.email b2 ∧ Date_now w1 = Date_now w2.
Proof.
  intros (e1 & He1 & ->)%login_token (e2 & He2 & Ht)%login_token.
  apply token_inj in Ht as [-> Hn]; [|apply pretty_no_dash..].
  split; [congruence|]. by apply (inj pretty).
Qed.

Lemma tokens_collide_only_at_same_instant_witness :
  req.email ada = req.email ada
  ∧ Date_now quiet
    = Date_now (World 1700000000000 (bcrypt_digest quiet) (bcrypt_verify quiet) None
                  (Some "SQLITE_FULL") (object_text quiet)).
Proof.
  apply (tokens_collide_only_at_same_instant quiet
           (World 1700000000000 (bcrypt_digest quiet) (bcrypt_verify quiet) None
              (Some "SQLITE_FULL") (object_text quiet))
           (serve boot [(quiet, POST_register ada)])
           (serve boot [(quiet, POST_register ada); (quiet, POST_login ada)])
           ada ada "ada@example.org-1700000000000"); reflexivity.
Defined.

Lemma select_the_row (d : database) (r : row) e :
  consistent d → r ∈ students d → email r = Some e →
  select_by_email (Some e) d = Some r.
Proof.
  intros [_ Hem] Hr He. destruct (select_present e d r Hr He) as [u Hu].
  rewrite Hu. f_equal.
  apply find_some_elem in Hu as [Hin [s' [Hs [= <-]]]%sql_eq_true].
  apply list_elem_of_lookup_1 in Hr as [j Hj].
  apply list_elem_of_lookup_1 in Hin as [k Hk].
  destruct (decide (k = j)) as [->|Hne]; [congruence|].
  pose proof (Hem k j u r Hne Hk Hj) as Hx. rewrite Hs, He in Hx. simpl in Hx.
  by rewrite bool_decide_eq_true_2 in Hx.
Qed.

(** X23.  A session follows the email, not the row.  In a consistent table,
    a token whose entry holds the non-empty email of a stored row is
    answered with that row; once an update has given the row another
    email, the same token is answered 404. *)
Theorem email_change_orphans_session (w w' : world) (st : state)
    (authorization : option string) (e e' : string) (r : row) (b : req.body) :
  consistent (db st) →
  sessions st !! js_key authorization = Some (Some e) → e ≠ "" →
  r ∈ students (db st) → email r = Some e →
  req.email b = Some e' → e' ≠ e →
  status (reply (update w st (id r) b)) = 200%nat → get_err w' = None →
  reply (profile w' st authorization) = ok (Profile (select_star r))
  ∧ reply (profile w' (next (update w st (id r) b)) authorization)
    = Response 404 (Message "User not found").
Proof.
  intros Hc Hs Hne Hr He Hb Hdiff H200 Hg. split.
  - unfold profile. rewrite (js_get_own _ _ _ Hs). cbn [js_field bind].
    rewrite truthy_string by done. cbn [negb]. rewrite db_get_calm by done.
    by rewrite (select_the_row _ r e).
  - revert H200. unfold update, db_update.
    destruct (run_err w); [done|].
    destruct (update_conflict _ _ _); [done|]. intros _. cbn [next].
    unfold profile. cbn [sessions db]. rewrite (js_get_own _ _ _ Hs).
    cbn [js_field bind]. rewrite truthy_string by done. cbn [negb].
    rewrite db_get_calm by done.
    assert (select_by_email (Some e)
              {| students :=
                   set_columns (id r) (req.firstName b) (req.lastName b)
                     (req.username b) (req.email b) (req.contact b)
                     (req.password b) <$> students (db st);
                 sqlite_sequence := sqlite_sequence (db st) |} = None) as ->; [|done].
    apply find_none_forall. intros u (u' & -> & Hu')%list_elem_of_fmap.
    unfold set_columns. case_bool_decide as Hid; simpl.
    + rewrite Hb. simpl. by apply bool_decide_eq_false_2.
    + apply list_elem_of_lookup_1 in Hr as [j Hj].
      apply list_elem_of_lookup_1 in Hu' as [k Hk].
      rewrite <- He. apply (emails_distinct _ Hc k j); [|done..].
      intros ->. congruence.
Qed.

Lemma email_change_orphans_session_witness :
  reply (profile quiet
           (next (update quiet
                    (serve boot [(quiet, POST_register ada); (quiet, POST_login ada)])
                    1 bob))
           (Some "ada@example.org-1700000000000"))
  = Response 404 (Message "User not found").
Proof.
  apply (email_change_orphans_session quiet quiet
    (serve boot [(quiet, POST_register ada); (quiet, POST_login ada)])
    (Some "ada@example.org-1700000000000") "ada@example.org" "bob@example.org"
    (Row 1 (Some "Ada") (Some "Lovelace") (Some "ada") (Some "ada@example.org")
       (Some "0917") (Some "$2b$10$enchantress")) bob); try reflexivity.
  - apply serve_consistent, boot_consistent.
  - discriminate.
  - apply list_elem_of_here.
  - discriminate.
Defined.

(** X24.  An old token opens the account that next takes its email.  When
    a token's entry holds a non-empty email that no stored row has (its row
    was deleted) and that email is registered again, storage reporting no
    error, the old token is answered 200 with the full row of the new
    registration, password column included. *)
Theorem old_token_opens_new_account (w w' : world) (st : state)
    (authorization : option string) (e p : string) (b : req.body) :
  sessions st !! js_key authorization = Some (Some e) → e ≠ "" →
  select_by_email (Some e) (db st) = None →
  req.email b = Some e → req.password b = Some p →
  calm w → get_err w' = None →
  reply (profile w' st authorization) = Response 404 (Message "User not found")
  ∧ reply (profile w' (next (register w st b)) authorization)
    = ok (Profile (select_star
            (Row (next_rowid (db st)) (req.firstName b) (req.lastName b)
               (req.username b) (Some e) (req.contact b)
               (Some (bcrypt_digest w p SALT_ROUNDS))))).
Proof.
  intros Hs Hne Hgone Hb Hp Hcalm Hg. split.
  - unfold profile. rewrite (js_get_own _ _ _ Hs). cbn [js_field bind].
    rewrite truthy_string by done. cbn [negb]. rewrite db_get_calm by done.
    by rewrite Hgone.
  - rewrite (register_fresh w st b p) by (by rewrite ?Hb). rewrite Hb.
    unfold profile. cbn [next sessions db]. rewrite (js_get_own _ _ _ Hs).
    cbn [js_field bind]. rewrite truthy_string by done. cbn [negb].
    rewrite db_get_calm by done. unfold select_by_email. cbn [students].
    rewrite (find_app_fresh _ _ _ Hgone); [done|].
    simpl. by apply bool_decide_eq_true.
Qed.

(** Ada's row is deleted while her session lives on; Mallory registers
    Ada's email. *)
Lemma old_token_opens_new_account_witness :
  reply (profile quiet
    (next (register quiet
       (serve boot [(quiet, POST_register ada); (quiet, POST_login ada);
                    (quiet, DELETE_students 1)])
       (req.Body (Some "Mallory") None None (Some "ada@example.org") None
          (Some "m"))))
    (Some "ada@example.org-1700000000000"))
  = ok (Profile
          [("id", VInt 2); ("firstName", VText "Mallory"); ("lastName", VNull);
           ("username", VNull); ("email", VText "ada@example.org");
           ("contact", VNull); ("password", VText "$2b$10$m")]).
Proof.
  apply (old_token_opens_new_account quiet quiet
    (serve boot [(quiet, POST_register ada); (quiet, POST_login ada);
                 (quiet, DELETE_students 1)])
    (Some "ada@example.org-1700000000000") "ada@example.org" "m"
    (req.Body (Some "Mallory") None None (Some "ada@example.org") None (Some "m")));
    try reflexivity.
  - discriminate.
  - by split.
Defined.

(** X25.  Overlapping registrations.  Run without anything in between, the
    two halves of the register handler are the handler.  When two register
    requests for the same fresh string email both get their lookup answered
    before either INSERT runs, storage reporting no error, both lookups
    pass; the first INSERT is answered 200, the second is refused by the
    UNIQUE index and answered 500 with the message "Insert error", and the
    table gains one row only. *)
Theorem overlapping_registrations (w1 w2 : world) (st : state)
    (b1 b2 : req.body) (e p1 p2 : string) :
  (register w1 st b1
   = match register_lookup w1 st b1 with
     | inl (answer, evs) => Outcome st answer evs
     | inr hash =>
         Outcome (next (register_insert w1 st b1 hash))
           (reply (register_insert w1 st b1 hash))
           (Ran SELECT_BY_EMAIL (inr 0%nat) :: calls (register_insert w1 st b1 hash))
     end)
  ∧ (req.email b1 = Some e → req.email b2 = Some e →
     req.password b1 = Some p1 → req.password b2 = Some p2 →
     select_by_email (Some e) (db st) = None → calm w1 → calm w2 →
     register_lookup w1 st b1 = inr (bcrypt_digest w1 p1 SALT_ROUNDS)
     ∧ register_lookup w2 st b2 = inr (bcrypt_digest w2 p2 SALT_ROUNDS)
     ∧ reply (register_insert w1 st b1 (bcrypt_digest w1 p1 SALT_ROUNDS))
       = ok (Created "Registered successfully" (next_rowid (db st)))
     ∧ register_insert w2
         (next (register_insert w1 st b1 (bcrypt_digest w1 p1 SALT_ROUNDS)))
         b2 (bcrypt_digest w2 p2 SALT_ROUNDS)
       = Outcome (next (register_insert w1 st b1 (bcrypt_digest w1 p1 SALT_ROUNDS)))
           (Response 500 (Failure "Insert error" SQLITE_CONSTRAINT))
           [Ran INSERT (inl SQLITE_CONSTRAINT)]
     ∧ length (students (db (next (register_insert w1 st b1
                                     (bcrypt_digest w1 p1 SALT_ROUNDS)))))
       = S (length (students (db st)))).
Proof.
  split.
  - unfold register, register_lookup, register_insert.
    destruct (db_get w1 (db st) (req.email b1)) as [err|[u|]]; [done..|].
    destruct (bcrypt_hash w1 (req.password b1) SALT_ROUNDS) as [err|hash]; [done|].
    by destruct (db_insert _ _ _ _ _ _ _ _) as [err|[i d]].
  - intros He1 He2 Hp1 Hp2 Hfresh [Hg1 Hr1] [Hg2 Hr2].
    unfold register_lookup, register_insert.
    rewrite !db_get_calm by done. rewrite He1, He2, Hfresh, Hp1, Hp2. simpl.
    rewrite db_insert_fresh by done. simpl.
    split_and!; [done..| |by rewrite length_app; simpl; lia].
    unfold db_insert. rewrite Hr2. simpl.
    assert (email_free (Some e)
              (students (db st) ++
                 [Row (next_rowid (db st)) (req.firstName b1) (req.lastName b1)
                    (req.username b1) (Some e) (req.contact b1)
                    (Some (bcrypt_digest w1 p1 SALT_ROUNDS))]) = false) as ->; [|done].
    unfold email_free. rewrite forallb_app. simpl.
    rewrite bool_decide_eq_true_2 by done. simpl. by rewrite andb_false_r.
Qed.

(** Ada's registration arrives twice before either is stored. *)
Lemma overlapping_registrations_witness :
  register_lookup quiet boot ada = inr "$2b$10$enchantress"
  ∧ reply (register_insert quiet boot ada "$2b$10$enchantress")
    = ok (Created "Registered successfully" 1)
  ∧ reply (register_insert quiet (next (register_insert quiet boot ada
                                          "$2b$10$enchantress"))
             ada "$2b$10$enchantress")
    = Response 500 (Failure "Insert error" SQLITE_CONSTRAINT).
Proof.
  destruct (proj2 (overlapping_registrations quiet quiet boot ada ada
    "ada@example.org" "enchantress" "enchantress")
    eq_refl eq_refl eq_refl eq_refl eq_refl (conj eq_refl eq_refl)
    (conj eq_refl eq_refl)) as (H1 & _ & H3 & H4 & _).
  split_and!; [exact H1 | exact H3 | exact (f_equal reply H4)].
Defined.

End ServerExtras.

(** ** Properties of the page *)

Module PageFacts.
Import Server Page.

Ltac unfold_async :=
  unfold try_catch, mbind, async_bind, mret, async_ret, await_api, read,
    setForm, setEditId, setStudents, setError.

Lemma entry_id (r : row) :
  (list_to_map (select_listed r) : object) !! "id" = Some (VInt (id r)).
Proof. reflexivity. Qed.

Lemma entry_body (r : row) :
  body_of (list_to_map (select_listed r))
  = Some (req.Body (firstName r) (lastName r) None (email r) (contact r) None).
Proof. destruct r as [i [?|] [?|] un [?|] [?|] pw]; reflexivity. Qed.

Lemma page_fetchStudents_settles net i p :
  (fetchStudents net i p).1 = inl ()
  ∧ form (fetchStudents net i p).2 = form p
  ∧ editId (fetchStudents net i p).2 = editId p
  ∧ sent (fetchStudents net i p).2 = sent p ++ [api_get_students].
Proof.
  unfold fetchStudents. unfold_async.
  by destruct (net _ _), i.
Qed.

Lemma page_updateStudent_settles net id f p :
  ∃ rest,
    (updateStudent net of_form id f p).1 = inl ()
    ∧ form (updateStudent net of_form id f p).2 = form p
    ∧ editId (updateStudent net of_form id f p).2 = editId p
    ∧ list_students (updateStudent net of_form id f p).2 = list_students p
    ∧ list_error (updateStudent net of_form id f p).2 = list_error p
    ∧ sent (updateStudent net of_form id f p).2 = sent p ++ api_put_student id f :: rest
    ∧ Forall (λ c, c = api_get_students) rest.
Proof.
  unfold updateStudent, fetchStudents. unfold_async.
  destruct (net _ _) as [status data|reason]; simpl.
  - destruct (bool_decide _); simpl.
    + destruct (net _ _); simpl; exists [api_get_students];
        rewrite <- app_assoc; split_and!; try done; by repeat constructor.
    + exists []. by split_and!.
  - exists []. by split_and!.
Qed.

Lemma page_addStudent_settles net f p :
  ∃ rest,
    (addStudent net of_form f p).1 = inl ()
    ∧ form (addStudent net of_form f p).2 = form p
    ∧ editId (addStudent net of_form f p).2 = editId p
    ∧ list_students (addStudent net of_form f p).2 = list_students p
    ∧ list_error (addStudent net of_form f p).2 = list_error p
    ∧ sent (addStudent net of_form f p).2 = sent p ++ api_post_register f :: rest
    ∧ Forall (λ c, c = api_get_students) rest.
Proof.
  unfold addStudent, fetchStudents. unfold_async.
  destruct (net _ _) as [status data|reason]; simpl.
  - destruct (_ || _); simpl.
    + destruct (net _ _); simpl; exists [api_get_students];
        rewrite <- app_assoc; split_and!; try done; by repeat constructor.
    + exists []. by split_and!.
  - exists []. by split_and!.
Qed.

(** What a submit does, whatever the network does. *)
Lemma handleSubmit_settles net p :
  ∃ rest,
    (handleSubmit net p).1 = inl ()
    ∧ form (handleSubmit net p).2 = empty_form
    ∧ editId (handleSubmit net p).2 = Some VNull
    ∧ list_students (handleSubmit net p).2 = list_students p
    ∧ list_error (handleSubmit net p).2 = list_error p
    ∧ sent (handleSubmit net p).2
      = sent p ++
          (if bool_decide (editId p ≠ Some VNull)
           then api_put_student (editId p) (form p)
           else api_post_register (form p)) :: rest
    ∧ Forall (λ c, c = api_get_students) rest.
Proof.
  unfold handleSubmit, resetForm, read, setForm, setEditId, mbind, async_bind.
  cbn beta iota. case_bool_decide.
  - destruct (page_updateStudent_settles net (editId p) (form p) p)
      as (rest & H1 & _ & _ & H4 & H5 & H6 & H7).
    exists rest. destruct (updateStudent _ _ _ _ _) as [[[]|e] p']; by simpl in *.
  - destruct (page_addStudent_settles net (form p) p)
      as (rest & H1 & _ & _ & H4 & H5 & H6 & H7).
    exists rest. destruct (addStudent _ _ _ _) as [[[]|e] p']; by simpl in *.
Qed.

Lemma consistent_no_conflict (d : database) (r r' : row) :
  consistent d → r ∈ Server.students d → r' ∈ Server.students d →
  id r' ≠ id r → sql_eq (email r') (email r) = false.
Proof.
  intros [_ Hem] [j Hj]%list_elem_of_lookup_1 [k Hk]%list_elem_of_lookup_1 Hne.
  apply (Hem k j); [|done..]. intros ->. congruence.
Qed.

(** X15.  Editing a listed student through the page wipes credentials.
    Press Update on the entry of a stored row and submit without typing:
    the page sends, whatever the network does next, the update request for
    that row with the entry as body; when that request reaches the service
    and storage reports no error, it is answered 200 and the row keeps its
    identifier, names, email and contact while its username and password
    become NULL, the other rows staying as they were. *)
Theorem edit_wipes_credentials (net : network) (p : page) (w : world)
    (st : state) (r : row) :
  consistent (db st) → r ∈ Server.students (db st) → run_err w = None →
  (∃ rest,
     sent ((click_update (list_to_map (select_listed r));; handleSubmit net) p).2
     = sent p ++
         api_put_student (Some (VInt (id r))) (list_to_map (select_listed r)) :: rest)
  ∧ ∃ q,
      request_of (api_put_student (Some (VInt (id r))) (list_to_map (select_listed r)))
      = Some q
      ∧ reply (handle w st q) = ok (Message "Student updated successfully")
      ∧ ∀ (k : nat) r', Server.students (db st) !! k = Some r' →
          Server.students (db (next (handle w st q))) !! k
          = Some (if bool_decide (id r' = id r)
                  then Row (id r) (firstName r) (lastName r) None (email r)
                         (contact r) None
                  else r').
Proof.
  intros Hc Hr Hrun. split.
  - assert ((click_update (list_to_map (select_listed r));; handleSubmit net) p
            = handleSubmit net
                (PageState (list_to_map (select_listed r)) (Some (VInt (id r)))
                   (form_students p) (form_error p) (list_students p)
                   (list_error p) (sent p))) as -> by done.
    destruct (handleSubmit_settles net
      (PageState (list_to_map (select_listed r)) (Some (VInt (id r)))
         (form_students p) (form_error p) (list_students p) (list_error p) (sent p)))
      as (rest & H1 & _ & _ & _ & _ & H6 & _).
    exists rest. rewrite H6. cbn [sent form editId].
    by rewrite bool_decide_eq_true_2.
  - unfold request_of. rewrite entry_body. eexists. split; [done|].
    cbn [handle req.firstName req.lastName req.username req.email req.contact
           req.password].
    unfold update, db_update. rewrite Hrun.
    cbn [req.firstName req.lastName req.username req.email req.contact
           req.password].
    rewrite (proj2 (ServerFacts.update_conflict_false _ _ _)).
    + simpl. split; [done|]. intros k r' Hk.
      rewrite list_lookup_fmap, Hk. simpl. unfold set_columns.
      case_bool_decide as Hid; [by rewrite Hid | done].
    + right. intros r' Hr' Hne. simpl. by apply (consistent_no_conflict (db st)).
Qed.

(** Ada's entry is edited and submitted as it is. *)
Lemma edit_wipes_credentials_witness :
  ∃ q,
    request_of (api_put_student (Some (VInt 1))
                  (list_to_map (select_listed
                     (Row 1 (Some "Ada") (Some "Lovelace") (Some "ada")
                        (Some "ada@example.org") (Some "0917")
                        (Some "$2b$10$enchantress"))))) = Some q
    ∧ reply (handle quiet (serve boot [(quiet, POST_register ada)]) q)
      = ok (Message "Student updated successfully")
    ∧ Server.students (db (next (handle quiet (serve boot [(quiet, POST_register ada)]) q)))
        !! 0%nat
      = Some (Row 1 (Some "Ada") (Some "Lovelace") None (Some "ada@example.org")
                (Some "0917") None).
Proof.
  destruct (proj2 (edit_wipes_credentials (λ _ _, Rejected "Network Error")
    first_render quiet (serve boot [(quiet, POST_register ada)])
    (Row 1 (Some "Ada") (Some "Lovelace") (Some "ada") (Some "ada@example.org")
       (Some "0917") (Some "$2b$10$enchantress"))
    (ServerFacts.serve_consistent _ _ ServerFacts.boot_consistent)
    (list_elem_of_here _ _) eq_refl)) as (q & H1 & H2 & H3).
  exists q. split_and!; [exact H1 | exact H2 |].
  exact (H3 0%nat _ eq_refl).
Defined.

Lemma filter_entries i (rs : list row) :
  filter (λ s : object, s !! "id" ≠ Some (VInt i)) (parse_rows (select_listed <$> rs))
  = parse_rows (select_listed <$> filter (λ r, id r ≠ i) rs).
Proof.
  unfold parse_rows. induction rs as [|r rs IH]; [done|].
  rewrite !fmap_cons, !filter_cons, entry_id.
  destruct (decide (id r ≠ i)) as [Hne|Heq].
  - rewrite decide_True by congruence. rewrite !fmap_cons. by f_equal.
  - rewrite decide_False; [done|]. intros H. apply Heq. congruence.
Qed.

(** X16.  The Delete button keeps the list in step with the table.  When
    the list on screen holds the entries of the table and the service's
    answer to the delete request reaches the client, storage reporting no
    error, the list on screen afterwards holds the entries of the table as
    the delete left it, without a new read; the form is not touched. *)
Theorem delete_keeps_list_in_step (net : network) (p : page) (w : world)
    (st : state) (s : object) (i : Z) (data : list object) :
  list_students p = entries (db st) → s !! "id" = Some (VInt i) →
  run_err w = None →
  net (length (sent p)) (api_delete_student (Some (VInt i)))
  = Resolved (status (reply (delete_student w st i))) data →
  request_of (api_delete_student (s !! "id")) = Some (DELETE_students i)
  ∧ (click_delete net s p).1 = inl ()
  ∧ list_students (click_delete net s p).2
    = entries (db (next (delete_student w st i)))
  ∧ sent (click_delete net s p).2 = sent p ++ [api_delete_student (Some (VInt i))]
  ∧ form (click_delete net s p).2 = form p
  ∧ editId (click_delete net s p).2 = editId p.
Proof.
  intros Hsync Hid Hrun Hnet. rewrite Hid. split; [done|].
  unfold click_delete, deleteStudent. unfold_async. rewrite Hid, Hnet.
  unfold delete_student, db_delete. rewrite Hrun. simpl.
  split_and!; try done. rewrite Hsync. apply filter_entries.
Qed.

Lemma delete_keeps_list_in_step_witness :
  list_students
    (click_delete (λ _ _, Resolved 200 [])
       (list_to_map [("id", VInt 1); ("firstName", VText "Ada")])
       (PageState empty_form (Some VNull) [] None
          (entries (db (serve boot [(quiet, POST_register ada);
                                    (quiet, POST_register bob)])))
          None [])).2
  = entries (db (next (delete_student quiet
       (serve boot [(quiet, POST_register ada); (quiet, POST_register bob)]) 1))).
Proof.
  exact (proj1 (proj2 (proj2 (delete_keeps_list_in_step (λ _ _, Resolved 200 [])
    (PageState empty_form (Some VNull) [] None
       (entries (db (serve boot [(quiet, POST_register ada);
                                 (quiet, POST_register bob)])))
       None [])
    quiet (serve boot [(quiet, POST_register ada); (quiet, POST_register bob)])
    (list_to_map [("id", VInt 1); ("firstName", VText "Ada")]) 1 []
    eq_refl eq_refl eq_refl eq_refl)))).
Defined.

Lemma typed_form v1 v2 v3 v4 v5 v6 p :
  typed v1 v2 v3 v4 v5 v6 p
  = (inl (),
     PageState
       (<["password" := VText v6]> (<["contact" := VText v5]>
          (<["email" := VText v4]> (<["username" := VText v3]>
             (<["lastName" := VText v2]> (<["firstName" := VText v1]> (form p)))))))
       (editId p) (form_students p) (form_error p) (list_students p)
       (list_error p) (sent p)).
Proof. reflexivity. Qed.

Lemma typed_body v1 v2 v3 v4 v5 v6 (f : object) :
  body_of
    (<["password" := VText v6]> (<["contact" := VText v5]>
       (<["email" := VText v4]> (<["username" := VText v3]>
          (<["lastName" := VText v2]> (<["firstName" := VText v1]> f))))))
  = Some (req.Body (Some v1) (Some v2) (Some v3) (Some v4) (Some v5) (Some v6)).
Proof.
  unfold body_of, text_member.
  repeat (rewrite ?lookup_insert_eq; rewrite ?lookup_insert_ne by done).
  reflexivity.
Qed.

(** X17.  What is typed is what gets registered.  After the six inputs are
    typed into, whatever the form held before, a submit with no editing
    identifier sends the register request with the typed values and clears
    the form; when that request reaches the service, storage reporting no
    error and the email being free, it is answered 200 and the new row holds
    the typed values, the password column holding what [bcrypt.hash]
    returned for the typed password. *)
Theorem typed_values_are_registered (net : network) (p : page) (w : world)
    (st : state) (v1 v2 v3 v4 v5 v6 : string) :
  editId p = Some VNull → calm w → select_by_email (Some v4) (db st) = None →
  ∃ o,
    form (typed v1 v2 v3 v4 v5 v6 p).2 = o
    ∧ (∃ rest,
         sent ((typed v1 v2 v3 v4 v5 v6;; handleSubmit net) p).2
         = sent p ++ api_post_register o :: rest)
    ∧ form ((typed v1 v2 v3 v4 v5 v6;; handleSubmit net) p).2 = empty_form
    ∧ request_of (api_post_register o)
      = Some (POST_register
                (req.Body (Some v1) (Some v2) (Some v3) (Some v4) (Some v5) (Some v6)))
    ∧ reply (register w st
               (req.Body (Some v1) (Some v2) (Some v3) (Some v4) (Some v5) (Some v6)))
      = ok (Created "Registered successfully" (next_rowid (db st)))
    ∧ Server.students (db (next (register w st
         (req.Body (Some v1) (Some v2) (Some v3) (Some v4) (Some v5) (Some v6)))))
      = Server.students (db st) ++
          [Row (next_rowid (db st)) (Some v1) (Some v2) (Some v3) (Some v4) (Some v5)
             (Some (bcrypt_digest w v6 SALT_ROUNDS))].
Proof.
  intros Hnull Hcalm Hfresh.
  destruct p as [f i fs fe ls le se]. simpl in Hnull. subst i.
  exists (<["password" := VText v6]> (<["contact" := VText v5]>
            (<["email" := VText v4]> (<["username" := VText v3]>
               (<["lastName" := VText v2]> (<["firstName" := VText v1]> f)))))).
  split; [by rewrite typed_form|].
  assert ((typed v1 v2 v3 v4 v5 v6;; handleSubmit net) (PageState f (Some VNull) fs fe ls le se)
          = handleSubmit net (typed v1 v2 v3 v4 v5 v6
                                (PageState f (Some VNull) fs fe ls le se)).2)
    as -> by done.
  destruct (handleSubmit_settles net
              (typed v1 v2 v3 v4 v5 v6 (PageState f (Some VNull) fs fe ls le se)).2)
    as (rest & _ & Hform & _ & _ & _ & Hsent & _).
  split_and!.
  - exists rest. exact Hsent.
  - exact Hform.
  - unfold request_of. by rewrite typed_body.
  - by rewrite (ServerFacts.register_fresh w st _ v6).
  - by rewrite (ServerFacts.register_fresh w st _ v6).
Qed.

Lemma typed_values_are_registered_witness :
  ∃ o,
    form (typed "Ada" "Lovelace" "ada" "ada@example.org" "0917" "enchantress"
            first_render).2 = o
    ∧ request_of (api_post_register o) = Some (POST_register ada)
    ∧ Server.students (db (next (register quiet boot ada)))
      = [Row 1 (Some "Ada") (Some "Lovelace") (Some "ada") (Some "ada@example.org")
           (Some "0917") (Some "$2b$10$enchantress")].
Proof.
  destruct (typed_values_are_registered (λ _ _, Rejected "Network Error")
    first_render quiet boot "Ada" "Lovelace" "ada" "ada@example.org" "0917"
    "enchantress" eq_refl (conj eq_refl eq_refl) eq_refl)
    as (o & H1 & _ & _ & H4 & _ & H6).
  exists o. split_and!; [exact H1 | exact H4 | exact H6].
Defined.

(** X18.  The label of the submit button and what a submit sends.  When the
    label reads Update the submit sends the update request for the editing
    identifier; when the identifier is null the label reads Register and
    the submit sends the register request.  An identifier that is not null
    but falsy (0, undefined) is labelled Register and still sends the update
    request.  After any submit the label reads Register and each of the six
    inputs shows the empty text. *)
Theorem label_and_dispatch (net : network) (p : page) :
  (submit_label (editId p) = "Update" →
   ∃ rest, sent (handleSubmit net p).2
           = sent p ++ api_put_student (editId p) (form p) :: rest)
  ∧ (editId p = Some VNull →
     submit_label (editId p) = "Register"
     ∧ ∃ rest, sent (handleSubmit net p).2
               = sent p ++ api_post_register (form p) :: rest)
  ∧ (js_truthy (editId p) = false → editId p ≠ Some VNull →
     submit_label (editId p) = "Register"
     ∧ ∃ rest, sent (handleSubmit net p).2
               = sent p ++ api_put_student (editId p) (form p) :: rest)
  ∧ submit_label (editId (handleSubmit net p).2) = "Register"
  ∧ ∀ field, field ∈ inputs → input_value (form (handleSubmit net p).2) field = "".
Proof.
  destruct (handleSubmit_settles net p) as (rest & _ & Hform & Hid & _ & _ & Hsent & _).
  split_and!.
  - intros Hl. exists rest. rewrite Hsent. rewrite bool_decide_eq_true_2; [done|].
    intros Hn. by rewrite Hn in Hl.
  - intros Hn. split; [by rewrite Hn|]. exists rest. rewrite Hsent, Hn.
    by rewrite bool_decide_eq_false_2 by (by intros ?).
  - intros Hf Hn. split; [unfold submit_label; by rewrite Hf|].
    exists rest. rewrite Hsent. by rewrite bool_decide_eq_true_2.
  - by rewrite Hid.
  - rewrite Hform. intros field Hf. unfold inputs in Hf.
    repeat (apply elem_of_cons in Hf as [->|Hf]; [reflexivity|]).
    by apply elem_of_nil in Hf.
Qed.

(** The editing identifier 0: labelled Register, sent as an update. *)
Lemma label_and_dispatch_witness :
  submit_label (Some (VInt 0)) = "Register"
  ∧ ∃ rest,
      sent (handleSubmit (λ _ _, Resolved 200 [])
              (PageState empty_form (Some (VInt 0)) [] None [] None [])).2
      = [] ++ api_put_student (Some (VInt 0)) empty_form :: rest.
Proof.
  apply (proj1 (proj2 (proj2 (label_and_dispatch (λ _ _, Resolved 200 [])
           (PageState empty_form (Some (VInt 0)) [] None [] None []))))).
  - reflexivity.
  - discriminate.
Defined.

Lemma handleSubmit_null net p :
  editId p = Some VNull →
  handleSubmit net p = (addStudent net of_form (form p);; resetForm) p.
Proof.
  intros Hn. unfold handleSubmit, read. unfold mbind at 1 2, async_bind.
  cbn beta iota. rewrite Hn. by rewrite bool_decide_eq_false_2 by (by intros ?).
Qed.

Lemma addStudent_refreshes net p s d d' :
  net (length (sent p)) (api_post_register s) = Resolved 200 d →
  net (S (length (sent p))) api_get_students = Resolved 200 d' →
  addStudent net of_form s p
  = (inl (),
     PageState (form p) (editId p) d' (form_error p) (list_students p)
       (list_error p) ((sent p ++ [api_post_register s]) ++ [api_get_students])).
Proof.
  intros Hpost Hget. unfold addStudent, fetchStudents. unfold_async.
  rewrite Hpost. cbn.
  rewrite (bool_decide_eq_false_2 (200 = 201)%nat) by done.
  rewrite (bool_decide_eq_true_2 (200 = 200)%nat) by done.
  cbn. rewrite length_app. cbn.
  replace (length (sent p) + 1)%nat with (S (length (sent p))) by lia.
  by rewrite Hget.
Qed.

(** X19.  The list on screen goes stale after an add.  The submit handler
    refreshes the list cell of its own [useStudents], not the one that
    [StudentList] renders: when the list on screen holds the entries of the
    table and a submit's register request is answered 200 by the service,
    the list on screen is unchanged and one entry short of the table, even
    when the submit's own refresh succeeded. *)
Theorem list_goes_stale_after_add (net : network) (p : page) (w : world)
    (st : state) (b : req.body) (m : string) (i : Z) :
  editId p = Some VNull →
  list_students p = entries (db st) →
  request_of (api_post_register (form p)) = Some (POST_register b) →
  reply (register w st b) = ok (Created m i) →
  list_students (handleSubmit net p).2 = entries (db st)
  ∧ length (entries (db (next (register w st b))))
    = S (length (list_students (handleSubmit net p).2))
  ∧ (net (length (sent p)) (api_post_register (form p)) = Resolved 200 [] →
     net (S (length (sent p))) api_get_students
     = Resolved 200 (entries (db (next (register w st b)))) →
     form_students (handleSubmit net p).2 = entries (db (next (register w st b)))).
Proof.
  intros Hnull Hsync _ Hreg.
  destruct (handleSubmit_settles net p) as (rest & _ & _ & _ & Hl & _).
  destruct (ServerFacts.register_created _ _ _ _ _ Hreg) as (h & _ & Hrows).
  split_and!.
  - by rewrite Hl.
  - rewrite Hl, Hsync. unfold entries, parse_rows.
    rewrite Hrows, !length_fmap, length_app. simpl. lia.
  - intros Hpost Hget. rewrite handleSubmit_null by done.
    unfold mbind, async_bind.
    by rewrite (addStudent_refreshes net p (form p) [] _ Hpost Hget).
Qed.

Lemma list_goes_stale_after_add_witness :
  list_students (handleSubmit (λ _ _, Resolved 200 [])
    (typed "Ada" "Lovelace" "ada" "ada@example.org" "0917" "enchantress"
       first_render).2).2 = entries (db boot)
  ∧ length (entries (db (next (register quiet boot ada)))) = 1%nat.
Proof.
  destruct (list_goes_stale_after_add (λ _ _, Resolved 200 [])
    (typed "Ada" "Lovelace" "ada" "ada@example.org" "0917" "enchantress"
       first_render).2 quiet boot ada "Registered successfully" 1
    eq_refl eq_refl eq_refl eq_refl) as (H1 & H2 & _).
  split; [exact H1|]. rewrite H2. by rewrite H1.
Defined.

(** X20.  No operation of [useStudents] throws, and a rejected request is
    reported in the error cell of the instance that sent it, under the
    operation's own message, without touching either list. *)
Theorem rejections_are_reported (net : network) (i : instance) (p : page)
    (id : member) (s : object) (reason : string) :
  (net (length (sent p)) api_get_students = Rejected reason →
   reported_in i "Failed to fetch students" api_get_students
     p (fetchStudents net i p).2)
  ∧ (net (length (sent p)) (api_post_register s) = Rejected reason →
     reported_in i "Failed to register student" (api_post_register s)
       p (addStudent net i s p).2)
  ∧ (net (length (sent p)) (api_put_student id s) = Rejected reason →
     reported_in i "Failed to update student" (api_put_student id s)
       p (updateStudent net i id s p).2)
  ∧ (net (length (sent p)) (api_delete_student id) = Rejected reason →
     reported_in i "Failed to delete student" (api_delete_student id)
       p (deleteStudent net i id p).2)
  ∧ (fetchStudents net i p).1 = inl ()
  ∧ (addStudent net i s p).1 = inl ()
  ∧ (updateStudent net i id s p).1 = inl ()
  ∧ (deleteStudent net i id p).1 = inl ().
Proof.
  unfold fetchStudents, addStudent, updateStudent, deleteStudent, fetchStudents.
  unfold try_catch, mbind, async_bind, mret, async_ret, await_api, setStudents.
  split_and!.
  - intros ->. by destruct i.
  - intros ->. by destruct i.
  - intros ->. by destruct i.
  - intros ->. by destruct i.
  - by destruct (net _ _), i.
  - destruct (net _ _); [|by destruct i]. cbn. destruct (_ || _); [|done].
    cbn. by destruct (net _ _), i.
  - destruct (net _ _); [|by destruct i]. cbn. destruct (bool_decide _); [|done].
    cbn. by destruct (net _ _), i.
  - destruct (net _ _); [|by destruct i]. cbn. destruct (bool_decide _); [|done].
    by destruct i.
Qed.

Lemma rejections_are_reported_witness :
  reported_in of_list "Failed to delete student" (api_delete_student (Some (VInt 1)))
    first_render
    (deleteStudent (λ _ _, Rejected "Network Error") of_list (Some (VInt 1))
       first_render).2.
Proof.
  exact (proj1 (proj2 (proj2 (proj2 (rejections_are_reported
    (λ _ _, Rejected "Network Error") of_list first_render (Some (VInt 1))
    empty_form "Network Error")))) eq_refl).
Defined.

End PageFacts.

(** ** Properties of the toggle switch *)

Module ToggleFacts.
Import Toggle.

(** X21.  A click on a disabled toggle does nothing and reports nothing.  A
    click on an enabled toggle without a [checked] prop flips what it shows
    and reports the value it then shows.  A click on an enabled toggle with
    a [checked] prop reports the opposite of the prop and changes neither
    the cell nor, as long as the prop stays, what is shown. *)
Theorem toggle_click (pr : props) (t : toggle) :
  (disabled pr = true → handleClick pr t = t)
  ∧ (disabled pr = false → checked pr = None →
     isOn pr (handleClick pr t) = negb (isOn pr t)
     ∧ (has_onChange pr = true →
        reported (handleClick pr t) = reported t ++ [isOn pr (handleClick pr t)]))
  ∧ (disabled pr = false → is_Some (checked pr) →
     isOn pr (handleClick pr t) = isOn pr t
     ∧ internalChecked (handleClick pr t) = internalChecked t
     ∧ (has_onChange pr = true →
        reported (handleClick pr t) = reported t ++ [negb (isOn pr t)])).
Proof.
  unfold handleClick, isOn, isControlled. split_and!.
  - by intros ->.
  - intros -> ->. simpl. split; [done|]. by intros ->.
  - intros -> [c ->]. simpl. split_and!; [done..|]. by intros ->.
Qed.

Lemma toggle_click_witness :
  isOn (Props None true false) (handleClick (Props None true false) (Toggle false []))
  = negb (isOn (Props None true false) (Toggle false []))
  ∧ isOn (Props (Some true) true false)
      (handleClick (Props (Some true) true false) (Toggle false []))
    = isOn (Props (Some true) true false) (Toggle false []).
Proof.
  split.
  - exact (proj1 (proj1 (proj2 (toggle_click (Props None true false) (Toggle false [])))
                    eq_refl eq_refl)).
  - exact (proj1 (proj2 (proj2 (toggle_click (Props (Some true) true false)
                                  (Toggle false []))) eq_refl (mk_is_Some _ _ eq_refl))).
Defined.

Lemma clicks_cons pr prs t : clicks (pr :: prs) t = clicks prs (handleClick pr t).
Proof. reflexivity. Qed.

(** X22.  Without a [checked] prop, what the toggle holds after a series of
    clicks depends only on how many of them found it enabled: the cell is
    flipped when that number is odd and as it was when it is even; and one
    value is reported for each click that found it enabled with an
    [onChange]. *)
Theorem toggle_parity (prs : list props) (t : toggle) :
  Forall (λ pr, checked pr = None) prs →
  internalChecked (clicks prs t)
  = xorb (internalChecked t)
      (Nat.odd (length (filter (λ pr, disabled pr = false) prs)))
  ∧ length (reported (clicks prs t))
    = (length (reported t)
       + length (filter (λ pr, disabled pr = false ∧ has_onChange pr = true) prs))%nat.
Proof.
  intros Hun. revert t. induction Hun as [|pr prs Hpr _ IH]; intros t.
  - simpl. split; [by destruct (internalChecked t) | lia].
  - rewrite clicks_cons. destruct (IH (handleClick pr t)) as [-> ->].
    rewrite !filter_cons. unfold handleClick, isControlled. rewrite Hpr.
    destruct (disabled pr), (has_onChange pr); simpl; [done | done | |].
    + rewrite Nat.odd_succ, <- Nat.negb_odd, length_app. simpl.
      split; [by destruct (internalChecked t), (Nat.odd _) | lia].
    + rewrite Nat.odd_succ, <- Nat.negb_odd.
      split; [by destruct (internalChecked t), (Nat.odd _) | lia].
Qed.

(** Three clicks, the second one while disabled. *)
Lemma toggle_parity_witness :
  internalChecked (clicks [Props None true false; Props None true true;
                           Props None true false] (Toggle false []))
  = xorb false (Nat.odd 2)
  ∧ length (reported (clicks [Props None true false; Props None true true;
                              Props None true false] (Toggle false [])))
    = (0 + 2)%nat.
Proof.
  apply (toggle_parity [Props None true false; Props None true true;
                        Props None true false] (Toggle false [])).
  by repeat constructor.
Defined.

End ToggleFacts.
